(** * heimgeist.sichter.kohärenz: coherence scanner for wc-merger snapshots

    A shallow embedding of [scripts/heimgeist_sichter_kohärenz.py] and the
    properties of its evaluation core: the metadata-sanity rules, the
    expected-marker rules, the uncertainty score and the report record.

    Conventions of the embedding.
    - A parsed JSON document is a [value]; a Python [dict] with string keys
      is an association list read by its first matching key.
    - A Python [str] is a Rocq [string] holding its UTF-8 bytes.  Prefix
      tests and concatenation act on the bytes as they act on the code
      points, and the bytewise lexicographic order of UTF-8 is the code
      point order that Python's [sorted] uses on [str].
    - A Python [float] is a binary64 number, a [spec_float] of the Standard
      Library with precision 53 and maximal exponent 1024.
    - A Python [set] of strings is a [gset string].
    - An uncaught Python exception is the [Err] case of [result]. *)

From Stdlib Require Import ZArith String Ascii List Bool Lia.
From Stdlib Require Import Floats.SpecFloat.
From stdpp Require Import base tactics option list sets gmap strings sorting pretty.

Set Warnings "-register-all,-clear-no-such-hyp".
Local Open Scope Z_scope.

(** ** Binary64 numbers *)

Module F64.

Definition prec : Z := 53.
Definition emax : Z := 1024.

Definition add : spec_float → spec_float → spec_float := SFadd prec emax.
Definition div : spec_float → spec_float → spec_float := SFdiv prec emax.
Definition ltb : spec_float → spec_float → bool := SFltb.
Definition leb : spec_float → spec_float → bool := SFleb.

(** The float nearest to an integer. *)
Definition of_Z (z : Z) : spec_float := binary_normalize prec emax z 0 false.

(** The float a decimal literal [n/d] denotes: the correctly rounded
    quotient of two integers that are themselves floats. *)
Definition of_ratio (n d : Z) : spec_float := div (of_Z n) (of_Z d).

(** The literals of the source. *)
Definition f_0_0 : spec_float := S754_zero false.
Definition f_0_18 : spec_float := S754_finite false 6485183463413514 (-55).
Definition f_0_10 : spec_float := S754_finite false 7205759403792794 (-56).
Definition f_0_08 : spec_float := S754_finite false 5764607523034235 (-56).
Definition f_0_12 : spec_float := S754_finite false 8646911284551352 (-56).
Definition f_0_95 : spec_float := S754_finite false 8556839292003942 (-53).
Definition f_95_0 : spec_float := S754_finite false 6685030696878080 (-46).
Definition f_100_0 : spec_float := S754_finite false 7036874417766400 (-46).

(** Reference points of the uncertainty claims. *)
Definition f_0_48 : spec_float := S754_finite false 8646911284551352 (-54).
Definition f_0_48_up : spec_float := S754_finite false 8646911284551353 (-54).

(** Python compares an [int] with a [float] exactly, without rounding the
    integer: [z < f] on the real values. *)
Definition Z_ltb (z : Z) (f : spec_float) : bool :=
  match f with
  | S754_nan => false
  | S754_infinity s => negb s
  | S754_zero _ => z <? 0
  | S754_finite s m e =>
      let v := if s then Z.neg m else Z.pos m in
      if 0 <=? e then z <? v * 2 ^ e else z * 2 ^ (- e) <? v
  end.

(** [x != 0.0]: the truth value of a float. *)
Definition nonzero (f : spec_float) : bool :=
  match f with S754_zero _ => false | _ => true end.

(** [min(a, b)] and [max(a, b)] of Python on two floats: the first
    argument is kept unless the second is strictly smaller (larger). *)
Definition py_min (a b : spec_float) : spec_float := if ltb b a then b else a.
Definition py_max (a b : spec_float) : spec_float := if ltb a b then b else a.

End F64.

(** ** JSON values *)

Inductive value : Type :=
  | VNone
  | VBool (b : bool)
  | VInt (z : Z)
  | VFloat (f : spec_float)
  | VStr (s : string)
  | VList (l : list value)
  | VDict (d : list (string * value)).

(** A Python [dict] with [str] keys. *)
Abbreviation dict := (list (string * value)).

(** [k in d] and [d[k]] in one: the value stored at [k], if any. *)
Fixpoint dict_lookup (k : string) (d : dict) : option value :=
  match d with
  | [] => None
  | (k', v) :: d' => if String.eqb k k' then Some v else dict_lookup k d'
  end.

(** [d.get(k, default)] on a dict. *)
Definition dict_get (d : dict) (k : string) (dflt : value) : value :=
  default dflt (dict_lookup k d).

(** [type(x).__name__], as it appears in the message of an exception. *)
Definition type_name (v : value) : string :=
  match v with
  | VNone => "NoneType"
  | VBool _ => "bool"
  | VInt _ => "int"
  | VFloat _ => "float"
  | VStr _ => "str"
  | VList _ => "list"
  | VDict _ => "dict"
  end.

(** [isinstance(x, dict)], [isinstance(x, str)], [isinstance(x, int)] and
    [isinstance(x, (int, float))].  Python's [bool] is a subclass of [int]:
    [True] and [False] pass both numeric tests. *)
Definition is_dict (v : value) : bool :=
  match v with VDict _ => true | _ => false end.
Definition is_str (v : value) : bool :=
  match v with VStr _ => true | _ => false end.
Definition is_int (v : value) : bool :=
  match v with VInt _ | VBool _ => true | _ => false end.
Definition is_int_or_float (v : value) : bool :=
  match v with VInt _ | VBool _ | VFloat _ => true | _ => false end.

(** [x < f] for a number [x] and a float [f]; [True] counts as 1 and
    [False] as 0.  Only called behind [is_int_or_float]. *)
Definition num_ltb (v : value) (f : spec_float) : bool :=
  match v with
  | VInt z => F64.Z_ltb z f
  | VBool b => F64.Z_ltb (if b then 1 else 0) f
  | VFloat g => F64.ltb g f
  | _ => false
  end.

(** The truth value of an object, as [if x], [x or y] and [not x] see it. *)
Definition truthy (v : value) : bool :=
  match v with
  | VNone => false
  | VBool b => b
  | VInt z => negb (z =? 0)
  | VFloat f => F64.nonzero f
  | VStr s => negb (String.eqb s EmptyString)
  | VList l => match l with [] => false | _ => true end
  | VDict d => match d with [] => false | _ => true end
  end.

(** ** Exceptions *)

(** The one exception the evaluation can raise: an attribute looked up on
    an object whose type lacks it. *)
Inductive exception : Type :=
  | AttributeError (type_of_object attribute : string).

Definition exception_class (e : exception) : string :=
  match e with AttributeError _ _ => "AttributeError" end.

Inductive result (A : Type) : Type :=
  | Ok (a : A)
  | Err (e : exception).
Arguments Ok {A} a.
Arguments Err {A} e.

#[global] Instance result_ret : MRet result := λ A a, Ok a.
#[global] Instance result_bind : MBind result := λ A B f m,
  match m with Ok a => f a | Err e => Err e end.
#[global] Instance result_fmap : FMap result := λ A B f m,
  match m with Ok a => Ok (f a) | Err e => Err e end.

(** [obj.get(k, default)]: only a dict has the method. *)
Definition py_get (obj : value) (k : string) (dflt : value) : result value :=
  match obj with
  | VDict d => Ok (dict_get d k dflt)
  | _ => Err (AttributeError (type_name obj) "get")
  end.

(** ** Findings and reports *)

Record Finding : Type := mkFinding {
  severity : string;  (* info | warn | crit *)
  code : string;
  title : string;
  detail : string;
}.

Record Report : Type := mkReport {
  generated_at : string;
  agent : string;
  input_path : string;
  meta : dict;
  scope : string;
  coverage_pct : value;   (* Optional[float]: a number or None *)
  files_total : value;    (* Optional[int]: an integer or None *)
  findings : list Finding;
  uncertainty : dict;
}.

(** ** Reading the document *)

Fixpoint _safe_get (d : value) (keys : list string) (dflt : value) : value :=
  match keys with
  | [] => d
  | k :: keys' =>
      match d with
      | VDict m =>
          match dict_lookup k m with
          | Some cur => _safe_get cur keys' dflt
          | None => dflt
          end
      | _ => dflt
      end
  end.

Definition as_dict (v : value) : option dict :=
  match v with VDict d => Some d | _ => None end.

Definition _list_files (doc : value) : result (list dict) :=
  files ← py_get doc "files" VNone;
  mret (match files with
        | VList l => omap as_dict l
        | _ => []
        end).

Definition _path_set (files : list dict) : gset string :=
  foldl (λ out f,
           match dict_get f "path" VNone with
           | VStr p => {[p]} ∪ out
           | _ => out
           end) ∅ files.

(** [sorted(s)] on a set of strings. *)
Definition sorted (s : gset string) : list string :=
  merge_sort String.le (elements s).

(** One turn of the loop of [_count_duplicates] on the pair [(seen, dups)]. *)
Definition count_duplicates_step
    (st : gset string * gset string) (f : dict) : gset string * gset string :=
  match dict_get f "path" VNone with
  | VStr p =>
      let dups := if decide (p ∈ st.1) then {[p]} ∪ st.2 else st.2 in
      ({[p]} ∪ st.1, dups)
  | _ => st
  end.

Definition _count_duplicates (files : list dict) : list string :=
  sorted (foldl count_duplicates_step (∅, ∅) files).2.

(** ** String helpers *)

(** [s.rstrip(c)] for a one-character set: drop every trailing [c]. *)
Fixpoint rstrip (c : ascii) (s : string) : string :=
  match s with
  | EmptyString => EmptyString
  | String a s' =>
      let r := rstrip c s' in
      if String.eqb r EmptyString && Ascii.eqb a c then EmptyString else String a r
  end.

(** [p.startswith(pre)]. *)
Definition startswith (p pre : string) : bool := String.prefix pre p.

(** [sep.join(l)]. *)
Definition join (sep : string) (l : list string) : string := String.concat sep l.

(** [if c: findings.append(f)]. *)
Definition append_if (c : bool) (f : Finding) (fs : list Finding) : list Finding :=
  if c then fs ++ [f] else fs.

(** ** Expected markers *)

(** The local function [has_prefix] of [_heuristic_expected_markers]. *)
Definition has_prefix (paths : gset string) (pre : string) : bool :=
  existsb (λ p, startswith p (rstrip "/" pre +:+ "/")) (elements paths).

Definition expected_any : list string :=
  [".ai-context.yml"; ".wgx/profile.yml"; "contracts"; "docs"; ".github/workflows"].

Definition finding_001 : Finding :=
  mkFinding "warn" "HG-SICHTER-001" "Kein .ai-context.yml sichtbar"
    "Viele Heimgewebe-Repos nutzen .ai-context.yml als Orientierungsanker. Fehlt hier (oder wurde durch Filter ausgeschlossen).".

Definition finding_002 : Finding :=
  mkFinding "warn" "HG-SICHTER-002" "Kein .wgx/ sichtbar"
    "WGX-Motorik fehlt im Snapshot (oder wurde herausgefiltert). Falls das Repo zur Fleet gehört, ist das ein Drift-Signal.".

Definition finding_003 : Finding :=
  mkFinding "info" "HG-SICHTER-003" "Kein contracts/ sichtbar"
    "Nicht jedes Repo braucht Contracts. Für zentrale Repos kann das aber ein Hinweis auf semantische Entkopplung sein.".

Definition finding_004 : Finding :=
  mkFinding "info" "HG-SICHTER-004" "Keine docs/ sichtbar"
    "Dokumentation fehlt im Snapshot (oder wurde durch Filter ausgeschlossen). Das ist nicht per se falsch, aber erhöht Integrationsrisiko.".

Definition finding_005 : Finding :=
  mkFinding "info" "HG-SICHTER-005" "Keine GitHub Workflows sichtbar"
    "Kein CI sichtbar. Wenn das Repo produktiv ist, könnte das technische Schulden anzeigen – oder der Snapshot ist stark gefiltert.".

Definition _heuristic_expected_markers (paths : gset string) : list Finding :=
  let findings := [] in
  (* .ai-context.yml *)
  let findings :=
    append_if (negb (bool_decide (".ai-context.yml" ∈ paths))
               && negb (has_prefix paths ".ai-context.yml/"))
      finding_001 findings in
  (* .wgx/ *)
  let findings := append_if (negb (has_prefix paths ".wgx/")) finding_002 findings in
  (* contracts/ *)
  let findings := append_if (negb (has_prefix paths "contracts/")) finding_003 findings in
  (* docs/ *)
  let findings :=
    append_if (negb (has_prefix paths "docs/") && negb (has_prefix paths "doc/"))
      finding_004 findings in
  (* workflows *)
  let findings :=
    append_if (negb (has_prefix paths ".github/workflows/")) finding_005 findings in
  findings.

(** ** Uncertainty *)

Definition cause_coverage : string :=
  "Coverage < 100%: Snapshot ist unvollständig (blinde Flecken).".
Definition cause_filters : string :=
  "Filter aktiv: Struktur-Befunde können verzerrt sein.".
Definition cause_flags : string :=
  "plan_only/code_only: Semantischer Kontext fehlt teilweise.".
Definition cause_none : string :=
  "Keine dominanten Ungewissheits-Treiber erkannt (aber Snapshot bleibt Snapshot).".
Definition uncertainty_note : string :=
  "Ungewissheit ist hier produktiv: Sie verhindert, dass Snapshot-Befunde als Live-Wahrheit missverstanden werden.".

(** The three tests of [_uncertainty], each on the raw document. *)
Definition coverage_below_100 (doc : value) : bool :=
  let coverage := _safe_get doc ["coverage"; "coverage_pct"] VNone in
  is_int_or_float coverage && num_ltb coverage F64.f_100_0.

Definition filters_active (doc : value) : bool :=
  let filters := _safe_get doc ["meta"; "filters"] (VDict []) in
  match filters with
  | VDict d =>
      truthy (dict_get d "path_filter" VNone) || truthy (dict_get d "ext_filter" VNone)
  | _ => false
  end.

Definition reduced_context (doc : value) : bool :=
  let plan_only := _safe_get doc ["meta"; "plan_only"] VNone in
  let code_only := _safe_get doc ["meta"; "code_only"] VNone in
  match plan_only, code_only with
  | VBool true, _ | _, VBool true => true
  | _, _ => false
  end.

(** The pair [(score, causes)] when line 269 is reached, before the clamp. *)
Definition uncertainty_sum (doc : value) : spec_float * list string :=
  let causes := [] in
  let score := F64.f_0_18 in
  let '(score, causes) :=
    if coverage_below_100 doc
    then (F64.add score F64.f_0_10, causes ++ [cause_coverage])
    else (score, causes) in
  let '(score, causes) :=
    if filters_active doc
    then (F64.add score F64.f_0_08, causes ++ [cause_filters])
    else (score, causes) in
  let '(score, causes) :=
    if reduced_context doc
    then (F64.add score F64.f_0_12, causes ++ [cause_flags])
    else (score, causes) in
  (score, causes).

(** [max(0.0, min(0.95, score))]. *)
Definition clamp (score : spec_float) : spec_float :=
  F64.py_max F64.f_0_0 (F64.py_min F64.f_0_95 score).

Definition _uncertainty (doc : value) : dict :=
  let '(score, causes) := uncertainty_sum doc in
  let score := clamp score in
  [ ("uncertainty_score", VFloat score);
    ("causes", VList (VStr <$> (match causes with [] => [cause_none] | _ => causes end)));
    ("note", VStr uncertainty_note) ].

(** ** Built-ins of Python the rules call

    The texts of four findings interpolate values of the document.  What
    [str()] and [repr()] print (the shortest decimal of a float, the quoting
    of a string) and what [str.lower] and [str.strip] do on all of Unicode
    belongs to the interpreter, not to this program: the rules are stated
    for any such functions. *)
Class PyBuiltins : Type := {
  py_str : value → string;     (* [f"{x}"], that is [str(x)] *)
  py_repr : string → string;   (* [f"{s!r}"], that is [repr(s)] of a str *)
  py_lower : string → string;  (* [s.lower()] *)
  py_strip : string → string;  (* [s.strip()] *)
}.

Section Evaluation.

Context `{PyBuiltins}.

(** ** Metadata sanity *)

Definition finding_010 (contract ver : value) : Finding :=
  mkFinding "crit" "HG-SICHTER-010" "Unerwarteter Merge-Contract"
    ("Erwartet wc-merge-agent/v1, gefunden: " +:+ py_str contract +:+ "/"
     +:+ py_str ver +:+ ". Ergebnis ist nur eingeschränkt interpretierbar.").

Definition finding_011 (coverage : value) : Finding :=
  mkFinding "warn" "HG-SICHTER-011" "Coverage < 95%"
    ("Coverage " +:+ py_str coverage
     +:+ "%: Hohe Chance auf blinde Flecken. Befunde sind eher Tendenzen als Aussagen.").

Definition finding_012 (max_file_bytes : value) : Finding :=
  mkFinding "warn" "HG-SICHTER-012" "Datei-Kürzung aktiv (max_file_bytes != 0)"
    ("max_file_bytes=" +:+ py_str max_file_bytes
     +:+ ". Das ist semantisch riskant (Teilwahrheiten). Split wäre besser.").

Definition finding_013 (path_filter : string) : Finding :=
  mkFinding "info" "HG-SICHTER-013" "Path-Filter aktiv"
    ("path_filter=" +:+ py_repr path_filter
     +:+ ". Marker können fehlen, weil sie außerhalb des Scope liegen.").

Definition finding_014 (ext_filter : string) : Finding :=
  mkFinding "info" "HG-SICHTER-014" "Extension-Filter aktiv"
    ("ext_filter=" +:+ py_repr ext_filter
     +:+ ". Struktur-Befunde sind ggf. verzerrt.").

Definition finding_015 (dups : list string) : Finding :=
  mkFinding "crit" "HG-SICHTER-015" "Doppelte Dateipfade im Merge"
    ("Folgende Pfade sind mehrfach enthalten: " +:+ join ", " (take 50 dups)
     +:+ (if (50 <? length dups)%nat then " …" else EmptyString)).

Definition finding_016 (profile : string) : Finding :=
  mkFinding "info" "HG-SICHTER-016" "Profil ist nicht maximal"
    ("profile=" +:+ py_repr profile
     +:+ ". Für Kohärenz-Checks ist max oft sinnvoller (weniger blinde Flecken).").

Definition finding_017 : Finding :=
  mkFinding "warn" "HG-SICHTER-017" "Scope nicht angegeben"
    "scope fehlt/leer. Mehrdeutigkeit steigt: Ist es ein Single-Repo- oder Multi-Repo-Snapshot?".

(** [isinstance(x, str) and x.strip()], and the string to print. *)
Definition nonblank_str (v : value) : option string :=
  match v with
  | VStr s => if String.eqb (py_strip s) EmptyString then None else Some s
  | _ => None
  end.

(** [x != s] for a str literal [s]. *)
Definition differs_from (v : value) (s : string) : bool :=
  match v with VStr t => negb (String.eqb t s) | _ => true end.

(** [isinstance(x, int) and x not in (0,)]. *)
Definition nonzero_int (v : value) : bool :=
  match v with
  | VInt z => negb (z =? 0)
  | VBool b => b
  | _ => false
  end.

(** [isinstance(x, str) and x.lower() in ("dev", "min")]. *)
Definition reduced_profile (v : value) : option string :=
  match v with
  | VStr s =>
      if String.eqb (py_lower s) "dev" || String.eqb (py_lower s) "min"
      then Some s else None
  | _ => None
  end.

(** [if o: findings.append(mk(o))] for a test that yields the value the
    finding prints. *)
Definition append_some {A} (o : option A) (mk : A → Finding)
    (fs : list Finding) : list Finding :=
  match o with Some a => fs ++ [mk a] | None => fs end.

Definition _meta_sanity (doc : value) (files : list dict) : result (list Finding) :=
  let findings := [] in
  let contract := _safe_get doc ["meta"; "contract"] VNone in
  let ver := _safe_get doc ["meta"; "contract_version"] VNone in
  let profile := _safe_get doc ["meta"; "profile"] VNone in
  let coverage := _safe_get doc ["coverage"; "coverage_pct"] VNone in
  let max_file_bytes := _safe_get doc ["meta"; "max_file_bytes"] VNone in
  scope ← py_get doc "scope" VNone;
  m ← py_get doc "meta" (VDict []);
  filters ← py_get m "filters" (VDict []);
  let findings :=
    append_if (differs_from contract "wc-merge-agent" || differs_from ver "v1")
      (finding_010 contract ver) findings in
  let findings :=
    append_if (is_int_or_float coverage && num_ltb coverage F64.f_95_0)
      (finding_011 coverage) findings in
  (* max_file_bytes: 0 ist gut (keine Datei-Kürzung) *)
  let findings :=
    append_if (nonzero_int max_file_bytes) (finding_012 max_file_bytes) findings in
  (* Filter: path_filter/ext_filter *)
  let path_filter :=
    match filters with VDict d => dict_get d "path_filter" VNone | _ => VNone end in
  let ext_filter :=
    match filters with VDict d => dict_get d "ext_filter" VNone | _ => VNone end in
  let findings := append_some (nonblank_str path_filter) finding_013 findings in
  let findings := append_some (nonblank_str ext_filter) finding_014 findings in
  (* Duplicate paths *)
  let dups := _count_duplicates files in
  let findings :=
    append_if (match dups with [] => false | _ => true end)
      (finding_015 dups) findings in
  (* Profile hint *)
  let findings := append_some (reduced_profile profile) finding_016 findings in
  let findings :=
    append_if (negb (is_str scope)
               || match scope with VStr s => String.eqb (py_strip s) EmptyString | _ => false end)
      finding_017 findings in
  mret findings.

(** ** The report *)

Definition agent_name : string := "heimgeist.sichter.kohärenz".

(** [now] is the reading of the clock that [_now_iso()] returns and
    [input_path] the text of [str(input_path)]. *)
Definition build_report (now : string) (doc : value) (input_path : string)
    : result Report :=
  files ← _list_files doc;
  let paths := _path_set files in
  (* doc.get("meta") if isinstance(doc.get("meta"), dict) else {} *)
  m ← py_get doc "meta" VNone;
  let meta := match m with VDict d => d | _ => [] end in
  (* doc.get("scope") if isinstance(doc.get("scope"), str), else the empty str *)
  sc ← py_get doc "scope" VNone;
  let scope := match sc with VStr s => s | _ => EmptyString end in
  let coverage := _safe_get doc ["coverage"; "coverage_pct"] VNone in
  let files_total := _safe_get doc ["meta"; "total_files"] VNone in
  let findings := [] in
  ms ← _meta_sanity doc files;
  let findings := findings ++ ms in
  let findings := findings ++ _heuristic_expected_markers paths in
  mret {|
    generated_at := now;
    agent := agent_name;
    input_path := input_path;
    meta := meta;
    scope := scope;
    coverage_pct := if is_int_or_float coverage then coverage else VNone;
    files_total := if is_int files_total then files_total else VNone;
    findings := findings;
    uncertainty := _uncertainty doc;
  |}.

End Evaluation.

(** ** The rules, one by one

    Each rule of the two families as a function of the raw document that
    yields no finding or one.  [meta_sanity_rules] and
    [expected_markers_rules] below show that the loops of [_meta_sanity]
    and [_heuristic_expected_markers] compute the concatenation of
    these. *)

(** The file records of a document: [_list_files] on a mapping. *)
Definition doc_files (doc : value) : list dict :=
  match _safe_get doc ["files"] VNone with
  | VList l => omap as_dict l
  | _ => []
  end.

Definition doc_paths (doc : value) : gset string := _path_set (doc_files doc).

Definition doc_filters (doc : value) : value :=
  _safe_get doc ["meta"; "filters"] (VDict []).

Definition filter_field (filters : value) (k : string) : value :=
  match filters with VDict d => dict_get d k VNone | _ => VNone end.

Definition rule : Type := value → list Finding.

Definition when (c : bool) (f : Finding) : list Finding := if c then [f] else [].

Section Rules.

Context `{PyBuiltins}.

Definition rule_contract : rule := λ doc,
  let contract := _safe_get doc ["meta"; "contract"] VNone in
  let ver := _safe_get doc ["meta"; "contract_version"] VNone in
  when (differs_from contract "wc-merge-agent" || differs_from ver "v1")
    (finding_010 contract ver).

Definition rule_coverage : rule := λ doc,
  let coverage := _safe_get doc ["coverage"; "coverage_pct"] VNone in
  when (is_int_or_float coverage && num_ltb coverage F64.f_95_0)
    (finding_011 coverage).

Definition rule_max_file_bytes : rule := λ doc,
  let max_file_bytes := _safe_get doc ["meta"; "max_file_bytes"] VNone in
  when (nonzero_int max_file_bytes) (finding_012 max_file_bytes).

Definition rule_path_filter : rule := λ doc,
  from_option (λ s, [finding_013 s]) []
    (nonblank_str (filter_field (doc_filters doc) "path_filter")).

Definition rule_ext_filter : rule := λ doc,
  from_option (λ s, [finding_014 s]) []
    (nonblank_str (filter_field (doc_filters doc) "ext_filter")).

Definition rule_duplicates : rule := λ doc,
  let dups := _count_duplicates (doc_files doc) in
  when (match dups with [] => false | _ => true end) (finding_015 dups).

Definition rule_profile : rule := λ doc,
  from_option (λ s, [finding_016 s]) []
    (reduced_profile (_safe_get doc ["meta"; "profile"] VNone)).

Definition rule_scope : rule := λ doc,
  let scope := _safe_get doc ["scope"] VNone in
  when (negb (is_str scope)
        || match scope with VStr s => String.eqb (py_strip s) EmptyString | _ => false end)
    finding_017.

Definition meta_rules : list (string * rule) :=
  [ ("HG-SICHTER-010", rule_contract);
    ("HG-SICHTER-011", rule_coverage);
    ("HG-SICHTER-012", rule_max_file_bytes);
    ("HG-SICHTER-013", rule_path_filter);
    ("HG-SICHTER-014", rule_ext_filter);
    ("HG-SICHTER-015", rule_duplicates);
    ("HG-SICHTER-016", rule_profile);
    ("HG-SICHTER-017", rule_scope) ].

End Rules.

Definition marker_ai_context : rule := λ doc,
  when (negb (bool_decide (".ai-context.yml" ∈ doc_paths doc))
        && negb (has_prefix (doc_paths doc) ".ai-context.yml/"))
    finding_001.

Definition marker_wgx : rule := λ doc,
  when (negb (has_prefix (doc_paths doc) ".wgx/")) finding_002.

Definition marker_contracts : rule := λ doc,
  when (negb (has_prefix (doc_paths doc) "contracts/")) finding_003.

Definition marker_docs : rule := λ doc,
  when (negb (has_prefix (doc_paths doc) "docs/")
        && negb (has_prefix (doc_paths doc) "doc/"))
    finding_004.

Definition marker_workflows : rule := λ doc,
  when (negb (has_prefix (doc_paths doc) ".github/workflows/")) finding_005.

Definition marker_rules : list (string * rule) :=
  [ ("HG-SICHTER-001", marker_ai_context);
    ("HG-SICHTER-002", marker_wgx);
    ("HG-SICHTER-003", marker_contracts);
    ("HG-SICHTER-004", marker_docs);
    ("HG-SICHTER-005", marker_workflows) ].

(** The findings a list of rules yields on a document, in the order of the
    list. *)
Definition run_rules (rs : list (string * rule)) (doc : value) : list Finding :=
  concat ((λ cr, cr.2 doc) <$> rs).

(** The findings of a report that carry a given code. *)
Definition with_code (c : string) (fs : list Finding) : list Finding :=
  filter (λ f, code f = c) fs.

(** ** Vocabulary of the statements *)

(** The entry [meta] of a mapping is missing or is itself a mapping. *)
Definition meta_absent_or_mapping (fields : dict) : Prop :=
  dict_lookup "meta" fields = None ∨ ∃ m, dict_lookup "meta" fields = Some (VDict m).

(** The path a file entry declares: the entry is a mapping whose [path] is
    a string. *)
Definition item_path (v : value) : option string :=
  match v with
  | VDict d =>
      match dict_lookup "path" d with
      | Some (VStr p) => Some p
      | _ => None
      end
  | _ => None
  end.

(** How many file records of [raw] declare the path [p]. *)
Definition path_count (p : string) (raw : list value) : nat :=
  length (filter (λ v, item_path v = Some p) raw).

(** The same count on the records [_list_files] keeps. *)
Definition record_count (p : string) (files : list dict) : nat :=
  length (filter (λ f : dict, item_path (VDict f) = Some p) files).

(** Strictly ascending in the lexicographic order of the bytes. *)
Definition str_lt (a b : string) : Prop := String.compare a b = Lt.

(** [q in s] on strings: [q] occurs in [s]. *)
Definition occurs_in (q s : string) : Prop :=
  ∃ before after, s = before +:+ q +:+ after.

(** A JSON number: an integer or a float.  [true], [false] and [null] are
    values of their own kind, not numbers. *)
Definition json_number (v : value) : bool :=
  match v with
  | VInt _ | VFloat _ => true
  | _ => false
  end.

(** A JSON boolean: [true] or [false]. *)
Definition json_boolean (v : value) : bool :=
  match v with
  | VBool _ => true
  | _ => false
  end.

(** [coverage_pct] is a JSON number strictly below 95.0.  No boolean, no
    string and no other value is one. *)
Definition number_below_95 (v : value) : Prop :=
  match v with
  | VInt z => z < 95
  | VFloat g => SFltb g F64.f_95_0 = true
  | _ => False
  end.

(** The declared contract and version are the expected pair. *)
Definition expected_contract (doc : value) : Prop :=
  _safe_get doc ["meta"; "contract"] VNone = VStr "wc-merge-agent"
  ∧ _safe_get doc ["meta"; "contract_version"] VNone = VStr "v1".

(** The score as a sum: the baseline and, in this order, the increments
    whose test holds. *)
Definition plus_if (b : bool) (inc score : spec_float) : spec_float :=
  if b then F64.add score inc else score.

Definition score_of (coverage filters flags : bool) : spec_float :=
  plus_if flags F64.f_0_12
    (plus_if filters F64.f_0_08 (plus_if coverage F64.f_0_10 F64.f_0_18)).

(** A rule emits findings of one code only. *)
Definition emits_only (c : string) (r : rule) : Prop :=
  ∀ doc f, f ∈ r doc → code f = c.

(** The report [build_report] returns on a mapping whose [meta] is missing
    or a mapping, with the findings written as the output of the rules. *)
Definition report_on_mapping `{PyBuiltins} (now : string) (doc : value)
    (ip : string) : Report :=
  let coverage := _safe_get doc ["coverage"; "coverage_pct"] VNone in
  let files_total := _safe_get doc ["meta"; "total_files"] VNone in
  {| generated_at := now;
     agent := agent_name;
     input_path := ip;
     meta := match _safe_get doc ["meta"] VNone with VDict d => d | _ => [] end;
     scope := match _safe_get doc ["scope"] VNone with VStr s => s | _ => EmptyString end;
     coverage_pct := if is_int_or_float coverage then coverage else VNone;
     files_total := if is_int files_total then files_total else VNone;
     findings := run_rules (meta_rules ++ marker_rules) doc;
     uncertainty := _uncertainty doc |}.

(** ** The structured-data mirror

    [main] writes [json.dumps(asdict(rep), ...)].  [asdict] turns the report
    and each of its findings into a mapping from field names, in the order
    of the declarations; the values of the fields are JSON values already.
    The JSON text itself is the business of Python's [json] module and is
    not modelled: the mirror is taken as the value that is printed. *)

Definition asdict_finding (f : Finding) : value :=
  VDict [ ("severity", VStr (severity f));
          ("code", VStr (code f));
          ("title", VStr (title f));
          ("detail", VStr (detail f)) ].

Definition asdict (rep : Report) : value :=
  VDict [ ("generated_at", VStr (generated_at rep));
          ("agent", VStr (agent rep));
          ("input_path", VStr (input_path rep));
          ("meta", VDict (meta rep));
          ("scope", VStr (scope rep));
          ("coverage_pct", coverage_pct rep);
          ("files_total", files_total rep);
          ("findings", VList (asdict_finding <$> findings rep));
          ("uncertainty", VDict (uncertainty rep)) ].

Definition field_str (d : dict) (k : string) : option string :=
  match dict_lookup k d with Some (VStr s) => Some s | _ => None end.

Definition field_dict (d : dict) (k : string) : option dict :=
  match dict_lookup k d with Some (VDict m) => Some m | _ => None end.

Definition field_list (d : dict) (k : string) : option (list value) :=
  match dict_lookup k d with Some (VList l) => Some l | _ => None end.

(** Modelled from the spec: the program has no reader of its own mirror.
    The spec asks that parsing the mirror back reconstructs every field of
    the report; this is the reader that does it, field by field. *)
Definition finding_of_mirror (v : value) : option Finding :=
  d ← as_dict v;
  sev ← field_str d "severity";
  c ← field_str d "code";
  t ← field_str d "title";
  dt ← field_str d "detail";
  Some (mkFinding sev c t dt).

(** Modelled from the spec: the reader of a whole mirror, see
    [finding_of_mirror]. *)
Definition report_of_mirror (v : value) : option Report :=
  d ← as_dict v;
  g ← field_str d "generated_at";
  a ← field_str d "agent";
  i ← field_str d "input_path";
  m ← field_dict d "meta";
  sc ← field_str d "scope";
  cov ← dict_lookup "coverage_pct" d;
  tot ← dict_lookup "files_total" d;
  fl ← field_list d "findings";
  fs ← mapM finding_of_mirror fl;
  u ← field_dict d "uncertainty";
  Some (mkReport g a i m sc cov tot fs u).

(** ** An instance of the built-ins for closed examples

    Exact on [None], the booleans, the integers and on ASCII strings without
    quotes; floats and containers print as a placeholder. *)

Definition ascii_str (v : value) : string :=
  match v with
  | VNone => "None"
  | VBool true => "True"
  | VBool false => "False"
  | VInt z => pretty z
  | VStr s => s
  | VFloat _ => "<float>"
  | VList _ => "[...]"
  | VDict _ => "{...}"
  end.

Definition ascii_repr (s : string) : string := "'" +:+ s +:+ "'".

Definition lower_char (c : ascii) : ascii :=
  let n := nat_of_ascii c in
  if ((65 <=? n) && (n <=? 90))%nat then ascii_of_nat (n + 32) else c.

Fixpoint ascii_lower (s : string) : string :=
  match s with
  | EmptyString => EmptyString
  | String c s' => String (lower_char c) (ascii_lower s')
  end.

Fixpoint lstrip_space (s : string) : string :=
  match s with
  | EmptyString => EmptyString
  | String c s' => if Ascii.is_space c then lstrip_space s' else s
  end.

Definition ascii_strip (s : string) : string :=
  String.rev (lstrip_space (String.rev (lstrip_space s))).

#[global] Instance ascii_builtins : PyBuiltins := {|
  py_str := ascii_str;
  py_repr := ascii_repr;
  py_lower := ascii_lower;
  py_strip := ascii_strip;
|}.

(** ** Documents of the examples *)

Definition file_record (p : string) : value := VDict [("path", VStr p)].

(** [{}] *)
Definition doc_empty : value := VDict [].

(** [{"meta": null}] *)
Definition doc_meta_null : value := VDict [("meta", VNone)].

(** [{"coverage": {"coverage_pct": true}}] *)
Definition doc_coverage_true : value :=
  VDict [("coverage", VDict [("coverage_pct", VBool true)])].

(** A snapshot under a foreign contract with two duplicated paths, reduced
    coverage, both filters and [plan_only]. *)
Definition files_other : list value :=
  [ file_record "b"; file_record "a"; VInt 3; file_record "b";
    file_record ".wgx"; file_record "a" ].

Definition fields_other : dict :=
  [ ("meta", VDict [ ("contract", VStr "other");
                     ("contract_version", VStr "v1");
                     ("filters", VDict [("path_filter", VStr "src/")]);
                     ("plan_only", VBool true) ]);
    ("coverage", VDict [("coverage_pct", VInt 50)]);
    ("files", VList files_other) ].

Definition doc_other : value := VDict fields_other.

(** The scenario of the spec: expected contract, full coverage, one file. *)
Definition fields_clean : dict :=
  [ ("meta", VDict [ ("contract", VStr "wc-merge-agent");
                     ("contract_version", VStr "v1") ]);
    ("coverage", VDict [("coverage_pct", VInt 100)]);
    ("files", VList [file_record "README.md"]) ].

Definition doc_clean : value := VDict fields_clean.

(** ** Rendering

    [render_markdown] builds the list [lines] and joins it with newlines.
    Its one source of failure is the loop over the causes of the
    uncertainty: a value that cannot be iterated raises [TypeError]. *)

Inductive checked (A : Type) : Type :=
  | Returned (a : A)
  | TypeError (type_of_object : string).  (* ['T' object is not iterable] *)
Arguments Returned {A} a.
Arguments TypeError {A} type_of_object.

#[global] Instance checked_ret : MRet checked := λ A a, Returned a.
#[global] Instance checked_bind : MBind checked := λ A B f m,
  match m with Returned a => f a | TypeError t => TypeError t end.
#[global] Instance checked_fmap : FMap checked := λ A B f m,
  match m with Returned a => Returned (f a) | TypeError t => TypeError t end.

(** A byte [10xxxxxx], which continues a character of UTF-8. *)
Definition is_continuation (c : ascii) : bool :=
  let n := nat_of_ascii c in ((128 <=? n) && (n <? 192))%nat.

(** The characters of a str, each as a str of its own: what [for c in s]
    yields. *)
Fixpoint utf8_chars (s : string) : list string :=
  match s with
  | EmptyString => []
  | String c s' =>
      match s' with
      | EmptyString => [String c EmptyString]
      | String c' _ =>
          if is_continuation c'
          then match utf8_chars s' with
               | ch :: chs => String c ch :: chs
               | [] => [String c EmptyString]
               end
          else String c EmptyString :: utf8_chars s'
      end
  end.

(** [for c in x]: the items of a list, the characters of a str, the keys of
    a dict; nothing else among the JSON values can be iterated. *)
Definition py_iter (x : value) : checked (list value) :=
  match x with
  | VList l => Returned l
  | VStr s => Returned (VStr <$> utf8_chars s)
  | VDict d => Returned (VStr <$> d.*1)
  | _ => TypeError (type_name x)
  end.

Definition newline : string := String "010"%char EmptyString.

Definition section_titles : list (string * string) :=
  [("crit", "Kritisch"); ("warn", "Warnungen"); ("info", "Hinweise")].

(** The local function [bucket] of [render_markdown]. *)
Definition bucket (rep : Report) (sev : string) : list Finding :=
  filter (λ f, severity f = sev) (findings rep).

Section Rendering.

Context `{PyBuiltins}.

(** The two lines of a finding. *)
Definition finding_lines (f : Finding) : list string :=
  [ "- **" +:+ code f +:+ "** — " +:+ title f; "  - " +:+ detail f ].

(** One turn of the loop over the three severities. *)
Definition render_section (rep : Report) (lines : list string)
    (st : string * string) : list string :=
  let fs := bucket rep st.1 in
  let lines :=
    lines ++ ["## " +:+ st.2 +:+ " (" +:+ py_str (VInt (Z.of_nat (length fs))) +:+ ")"] in
  match fs with
  | [] => (lines ++ ["_Keine._"]) ++ [EmptyString]
  | _ =>
      foldl (λ lines f,
               (lines ++ ["- **" +:+ code f +:+ "** — " +:+ title f])
               ++ ["  - " +:+ detail f]) lines fs
      ++ [EmptyString]
  end.

Definition render_lines (rep : Report) : checked (list string) :=
  let lines := [] in
  let lines := lines ++ ["# " +:+ agent rep] in
  let lines := lines ++ [EmptyString] in
  let lines := lines ++ ["- generated_at: `" +:+ generated_at rep +:+ "`"] in
  let lines := lines ++ ["- input: `" +:+ input_path rep +:+ "`"] in
  let lines :=
    if String.eqb (scope rep) EmptyString then lines
    else lines ++ ["- scope: `" +:+ scope rep +:+ "`"] in
  let lines :=
    match coverage_pct rep with
    | VNone => lines
    | c => lines ++ ["- coverage_pct: `" +:+ py_str c +:+ "`"]
    end in
  let lines :=
    match files_total rep with
    | VNone => lines
    | t => lines ++ ["- total_files(meta): `" +:+ py_str t +:+ "`"]
    end in
  let lines := lines ++ [EmptyString] in
  (* Findings *)
  let lines := foldl (render_section rep) lines section_titles in
  (* Uncertainty *)
  let lines := lines ++ ["## Ungewissheit"] in
  let lines :=
    lines ++ ["- score: `"
              +:+ py_str (dict_get (uncertainty rep) "uncertainty_score" VNone)
              +:+ "`"] in
  let lines := lines ++ ["- Ursachen:"] in
  causes ← py_iter (dict_get (uncertainty rep) "causes" (VList []));
  let lines := foldl (λ lines c, lines ++ ["  - " +:+ py_str c]) lines causes in
  let lines :=
    lines ++ ["- Notiz: " +:+ py_str (dict_get (uncertainty rep) "note" VNone)] in
  let lines := lines ++ [EmptyString] in
  (* Essenz + ironischer Stachel *)
  let lines := lines ++ ["## Verdichtete Essenz"] in
  let lines := lines ++ ["Snapshot-Befunde sind Landkarten, keine Gerichtsakten."] in
  let lines := lines ++ [EmptyString] in
  let lines := lines ++ ["## Ironischer Nachsatz"] in
  let lines :=
    lines ++ ["Wenn alles perfekt kohärent wäre, bräuchten wir den Sichter nicht – und dann wäre Heimgewebe vermutlich tot. Glückwunsch zur lebendigen Unordnung."] in
  let lines := lines ++ [EmptyString] in
  mret lines.

Definition render_markdown (rep : Report) : checked string :=
  join newline <$> render_lines rep.

End Rendering.

(** ** Vocabulary of further statements *)

(** The value a key path leads to, when every step meets a mapping that
    holds the key. *)
Fixpoint follow (d : value) (keys : list string) : option value :=
  match keys with
  | [] => Some d
  | k :: keys' =>
      match d with
      | VDict m => dict_lookup k m ≫= λ cur, follow cur keys'
      | _ => None
      end
  end.

(** The path a file record declares. *)
Definition record_path (f : dict) : option string := item_path (VDict f).

(** The codes the program can emit, each with its severity, in the order
    of the rules. *)
Definition finding_table : list (string * string) :=
  [ ("HG-SICHTER-010", "crit"); ("HG-SICHTER-011", "warn");
    ("HG-SICHTER-012", "warn"); ("HG-SICHTER-013", "info");
    ("HG-SICHTER-014", "info"); ("HG-SICHTER-015", "crit");
    ("HG-SICHTER-016", "info"); ("HG-SICHTER-017", "warn");
    ("HG-SICHTER-001", "warn"); ("HG-SICHTER-002", "warn");
    ("HG-SICHTER-003", "info"); ("HG-SICHTER-004", "info");
    ("HG-SICHTER-005", "info") ].

Definition code_and_severity (f : Finding) : string * string :=
  (code f, severity f).

(** A value [for c in x] accepts. *)
Definition iterable (x : value) : bool :=
  match x with VList _ | VStr _ | VDict _ => true | _ => false end.

(** The causes of the three tests that hold, in the order of the source. *)
Definition causes_of (coverage filters flags : bool) : list string :=
  (if coverage then [cause_coverage] else [])
  ++ (if filters then [cause_filters] else [])
  ++ (if flags then [cause_flags] else []).

(** [causes or [sentinel]]: the sentinel stands in for an empty list. *)
Definition or_sentinel (causes : list string) : list string :=
  match causes with [] => [cause_none] | _ => causes end.

(** The lines of one section of the rendering: the heading with the
    number of findings, the findings of that severity or the placeholder,
    and an empty line. *)
Definition section_lines `{PyBuiltins} (rep : Report) (st : string * string)
    : list string :=
  ["## " +:+ st.2 +:+ " ("
   +:+ py_str (VInt (Z.of_nat (length (bucket rep st.1)))) +:+ ")"]
  ++ match bucket rep st.1 with
     | [] => ["_Keine._"]
     | fs => concat (finding_lines <$> fs)
     end
  ++ [EmptyString].

(** The severities that have a section. *)
Definition rendered_severities : list string := ["crit"; "warn"; "info"].

(** Some file record of [raw] declares a path with the property [P]. *)
Definition declares (raw : list value) (P : string → Prop) : Prop :=
  ∃ v p, v ∈ raw ∧ item_path v = Some p ∧ P p.

(** The path [p] lies under the directory prefix [dir]. *)
Definition under (dir p : string) : Prop := ∃ rest, p = dir +:+ rest.

(** * Properties *)

(** ** Binary64 facts *)

(** The constants are the floats the literals of the source denote. *)
Example literals_are_nearest :
  F64.of_ratio 18 100 = F64.f_0_18 ∧ F64.of_ratio 10 100 = F64.f_0_10 ∧
  F64.of_ratio 8 100 = F64.f_0_08 ∧ F64.of_ratio 12 100 = F64.f_0_12 ∧
  F64.of_ratio 95 100 = F64.f_0_95 ∧ F64.of_ratio 48 100 = F64.f_0_48 ∧
  F64.of_Z 95 = F64.f_95_0 ∧ F64.of_Z 100 = F64.f_100_0.
Proof. by vm_compute. Qed.

Lemma Z_ltb_95 z : F64.Z_ltb z F64.f_95_0 = (z <? 95).
Proof.
  unfold F64.Z_ltb, F64.f_95_0.
  change (0 <=? -46) with false. cbv iota.
  change (Z.pos 6685030696878080) with (95 * 2 ^ 46).
  change (- -46) with 46.
  destruct (Z.ltb_spec (z * 2 ^ 46) (95 * 2 ^ 46)), (Z.ltb_spec z 95);
    try reflexivity; exfalso; lia.
Qed.

Lemma Z_ltb_100 z : F64.Z_ltb z F64.f_100_0 = (z <? 100).
Proof.
  unfold F64.Z_ltb, F64.f_100_0.
  change (0 <=? -46) with false. cbv iota.
  change (Z.pos 7036874417766400) with (100 * 2 ^ 46).
  change (- -46) with 46.
  destruct (Z.ltb_spec (z * 2 ^ 46) (100 * 2 ^ 46)), (Z.ltb_spec z 100);
    try reflexivity; exfalso; lia.
Qed.

(** ** Reading a mapping *)

Lemma py_get_mapping fields k dflt :
  py_get (VDict fields) k dflt = Ok (dict_get fields k dflt).
Proof. reflexivity. Qed.

Lemma safe_get_one fields k :
  _safe_get (VDict fields) [k] VNone = dict_get fields k VNone.
Proof. unfold dict_get. simpl. by destruct (dict_lookup k fields). Qed.

Lemma list_files_mapping fields :
  _list_files (VDict fields) = Ok (doc_files (VDict fields)).
Proof. unfold _list_files, doc_files. by rewrite safe_get_one. Qed.

Lemma filters_of_mapping fields :
  meta_absent_or_mapping fields →
  py_get (dict_get fields "meta" (VDict [])) "filters" (VDict [])
  = Ok (doc_filters (VDict fields)).
Proof.
  intros [Hm | [m Hm]]; unfold doc_filters, dict_get; simpl; rewrite Hm; simpl.
  - reflexivity.
  - unfold dict_get. by destruct (dict_lookup "filters" m).
Qed.

(** A root that is no mapping has no [get]: the first statement of
    [build_report] raises. *)
Lemma build_report_not_mapping `{PyBuiltins} now v ip :
  is_dict v = false →
  build_report now v ip = Err (AttributeError (type_name v) "get").
Proof. by destruct v. Qed.

(** ** The loops as concatenations of rules *)

Lemma append_if_when c f fs : append_if c f fs = fs ++ when c f.
Proof. destruct c; simpl; by rewrite ?app_nil_r. Qed.

Lemma append_some_from_option `{PyBuiltins} {A} (o : option A) mk fs :
  append_some o mk fs = fs ++ from_option (λ a, [mk a]) [] o.
Proof. destruct o; simpl; by rewrite ?app_nil_r. Qed.

Lemma meta_sanity_rules `{PyBuiltins} fields :
  meta_absent_or_mapping fields →
  _meta_sanity (VDict fields) (doc_files (VDict fields))
  = Ok (run_rules meta_rules (VDict fields)).
Proof.
  intros Hm. unfold _meta_sanity.
  rewrite !py_get_mapping. cbn [mbind result_bind].
  rewrite (filters_of_mapping _ Hm). cbn [mbind result_bind mret result_ret].
  f_equal.
  rewrite !append_if_when, !append_some_from_option.
  unfold run_rules, meta_rules. cbn [fmap list_fmap concat snd].
  unfold rule_contract, rule_coverage, rule_max_file_bytes, rule_path_filter,
    rule_ext_filter, rule_duplicates, rule_profile, rule_scope, filter_field.
  rewrite safe_get_one, app_nil_r. simpl app at 1.
  by rewrite <- !app_assoc.
Qed.

Lemma expected_markers_rules fields :
  _heuristic_expected_markers (doc_paths (VDict fields))
  = run_rules marker_rules (VDict fields).
Proof.
  unfold _heuristic_expected_markers. rewrite !append_if_when.
  unfold run_rules, marker_rules. cbn [fmap list_fmap concat snd].
  unfold marker_ai_context, marker_wgx, marker_contracts, marker_docs,
    marker_workflows.
  rewrite app_nil_r. simpl app at 1.
  by rewrite <- !app_assoc.
Qed.

Lemma run_rules_app rs1 rs2 doc :
  run_rules (rs1 ++ rs2) doc = run_rules rs1 doc ++ run_rules rs2 doc.
Proof. unfold run_rules. by rewrite fmap_app, concat_app. Qed.

(** ** Success and failure of [build_report] *)

Lemma build_report_mapping `{PyBuiltins} now fields ip :
  meta_absent_or_mapping fields →
  build_report now (VDict fields) ip = Ok (report_on_mapping now (VDict fields) ip).
Proof.
  intros Hm. unfold build_report.
  rewrite list_files_mapping, !py_get_mapping. cbn [mbind result_bind].
  rewrite (meta_sanity_rules _ Hm). cbn [mbind result_bind mret result_ret].
  fold (doc_paths (VDict fields)).
  rewrite expected_markers_rules, app_nil_l, <- run_rules_app.
  unfold report_on_mapping. by rewrite !safe_get_one.
Qed.

(** A mapping whose [meta] is present and no mapping: [_meta_sanity] calls
    [get] on it. *)
Lemma build_report_meta_not_mapping `{PyBuiltins} now fields ip v :
  dict_lookup "meta" fields = Some v → is_dict v = false →
  build_report now (VDict fields) ip = Err (AttributeError (type_name v) "get").
Proof.
  intros Hm Hv. unfold build_report.
  rewrite list_files_mapping, !py_get_mapping. cbn [mbind result_bind].
  unfold _meta_sanity. rewrite !py_get_mapping. cbn [mbind result_bind].
  assert (dict_get fields "meta" (VDict []) = v) as ->
    by (unfold dict_get; by rewrite Hm).
  by destruct v.
Qed.

Lemma build_report_inv `{PyBuiltins} now doc ip rep :
  build_report now doc ip = Ok rep →
  ∃ fields, doc = VDict fields ∧ meta_absent_or_mapping fields
            ∧ rep = report_on_mapping now doc ip.
Proof.
  intros Hrep.
  destruct (is_dict doc) eqn:Hdoc.
  - destruct doc as [| | | | | |fields]; try discriminate. exists fields.
    destruct (dict_lookup "meta" fields) as [v|] eqn:Hm.
    + destruct (is_dict v) eqn:Hv.
      * destruct v as [| | | | | |m]; try discriminate.
        assert (meta_absent_or_mapping fields) as Hok by (right; eauto).
        rewrite (build_report_mapping _ _ _ Hok) in Hrep. by inversion Hrep.
      * by rewrite (build_report_meta_not_mapping _ _ _ _ Hm Hv) in Hrep.
    + assert (meta_absent_or_mapping fields) as Hok by by left.
      rewrite (build_report_mapping _ _ _ Hok) in Hrep. by inversion Hrep.
  - by rewrite (build_report_not_mapping _ _ _ Hdoc) in Hrep.
Qed.

(** ** Findings by code *)

Lemma elem_of_when c f g : g ∈ when c f → g = f.
Proof. destruct c; simpl; [by intros ->%list_elem_of_singleton | by intros ?%elem_of_nil]. Qed.

Lemma elem_of_from_option_singleton {A} (mk : A → Finding) o g :
  g ∈ from_option (λ a, [mk a]) [] o → ∃ a, o = Some a ∧ g = mk a.
Proof.
  destruct o as [a|]; simpl; [|by intros ?%elem_of_nil].
  intros ->%list_elem_of_singleton. eauto.
Qed.

Lemma length_when c f : (length (when c f) ≤ 1)%nat.
Proof. destruct c; simpl; lia. Qed.

Lemma length_from_option_singleton {A} (mk : A → Finding) o :
  (length (from_option (λ a, [mk a]) [] o) ≤ 1)%nat.
Proof. destruct o; simpl; lia. Qed.

Ltac rule_cases Hf :=
  first [ apply elem_of_when in Hf as ->
        | apply elem_of_from_option_singleton in Hf as (? & _ & ->) ].

Lemma rules_emit_their_code `{PyBuiltins} :
  Forall (λ cr, emits_only cr.1 cr.2) (meta_rules ++ marker_rules).
Proof.
  unfold meta_rules, marker_rules. cbn [app].
  repeat apply Forall_cons_2; try apply Forall_nil_2;
    intros doc f Hf; cbn [fst snd] in *;
    unfold rule_contract, rule_coverage, rule_max_file_bytes, rule_path_filter,
      rule_ext_filter, rule_duplicates, rule_profile, rule_scope,
      marker_ai_context, marker_wgx, marker_contracts, marker_docs,
      marker_workflows in Hf;
    rule_cases Hf; reflexivity.
Qed.

Lemma rules_emit_at_most_one `{PyBuiltins} doc :
  Forall (λ cr, (length (cr.2 doc) ≤ 1)%nat) (meta_rules ++ marker_rules).
Proof.
  unfold meta_rules, marker_rules. cbn [app].
  repeat apply Forall_cons_2; try apply Forall_nil_2; cbn [snd];
    first [ apply length_when | apply length_from_option_singleton ].
Qed.

Lemma rule_codes_distinct `{PyBuiltins} : NoDup (meta_rules ++ marker_rules).*1.
Proof. apply (bool_decide_unpack _). by vm_compute. Qed.

Lemma with_code_all c l : (∀ f, f ∈ l → code f = c) → with_code c l = l.
Proof.
  unfold with_code. induction l as [|f l IH]; intros Hl; [done|].
  rewrite filter_cons_True by (apply Hl; left).
  f_equal. apply IH. intros g Hg. apply Hl. by right.
Qed.

Lemma with_code_none c l : (∀ f, f ∈ l → code f ≠ c) → with_code c l = [].
Proof.
  unfold with_code. induction l as [|f l IH]; intros Hl; [done|].
  rewrite filter_cons_False by (apply Hl; left).
  apply IH. intros g Hg. apply Hl. by right.
Qed.

Lemma with_code_app c l1 l2 : with_code c (l1 ++ l2) = with_code c l1 ++ with_code c l2.
Proof. apply filter_app. Qed.

Lemma with_code_foreign c rs doc :
  Forall (λ cr, emits_only cr.1 cr.2) rs → c ∉ rs.*1 →
  with_code c (run_rules rs doc) = [].
Proof.
  induction 1 as [|[c' r'] rs Hr Hrs IH]; intros Hc; [done|].
  cbn [fst snd] in Hr. unfold run_rules. cbn [fmap list_fmap concat snd].
  rewrite with_code_app. fold (run_rules rs doc).
  rewrite IH by (intros ?; apply Hc; by right).
  rewrite app_nil_r. apply with_code_none. intros f Hf <-.
  apply Hc. rewrite (Hr doc f Hf). by left.
Qed.

(** In a family of rules with distinct codes, the findings of a given code
    are the output of the rule that owns the code: what one rule reports
    does not depend on any other rule. *)
Lemma with_code_run_rules c r rs doc :
  Forall (λ cr, emits_only cr.1 cr.2) rs → NoDup rs.*1 → (c, r) ∈ rs →
  with_code c (run_rules rs doc) = r doc.
Proof.
  induction 1 as [|[c' r'] rs Hr Hrs IH]; intros Hnd Hin.
  { by apply elem_of_nil in Hin. }
  cbn [fst snd] in Hr. cbn [fmap list_fmap fst] in Hnd. apply NoDup_cons in Hnd as [Hc' Hnd].
  unfold run_rules. cbn [fmap list_fmap concat snd]. fold (run_rules rs doc).
  rewrite with_code_app.
  apply elem_of_cons in Hin as [[= -> ->] | Hin].
  - rewrite (with_code_foreign _ _ _ Hrs Hc'), app_nil_r.
    apply with_code_all. intros f Hf. exact (Hr doc f Hf).
  - rewrite (IH Hnd Hin).
    rewrite with_code_none; [done|]. intros f Hf Hcode.
    apply Hc'. rewrite <- (Hr doc f Hf), Hcode.
    apply (list_elem_of_fmap_2 fst _ _ Hin).
Qed.

Lemma report_with_code `{PyBuiltins} now doc ip c r :
  (c, r) ∈ meta_rules ++ marker_rules →
  with_code c (findings (report_on_mapping now doc ip)) = r doc.
Proof.
  intros Hin. cbn [report_on_mapping findings].
  apply with_code_run_rules;
    [apply rules_emit_their_code | apply rule_codes_distinct | done].
Qed.

(** ** Abort and success (C2) *)

(** C2 (as amended).  A parsed input whose root is not a mapping makes
    [build_report] abort: the first [get] on the root raises Python's
    [AttributeError] (the program defines no [ShapeError]).  A root that is
    a mapping whose [meta] entry is missing or is itself a mapping makes it
    succeed and return a report. *)
Theorem build_report_abort_and_success `{PyBuiltins} (now ip : string) :
  (∀ doc, is_dict doc = false →
     build_report now doc ip = Err (AttributeError (type_name doc) "get"))
  ∧ (∀ fields, meta_absent_or_mapping fields →
       ∃ rep, build_report now (VDict fields) ip = Ok rep).
Proof.
  split.
  - intros doc Hdoc. by apply build_report_not_mapping.
  - intros fields Hm. eexists. by apply build_report_mapping.
Qed.

Lemma build_report_abort_and_success_witness :
  (is_dict (VList []) = false
   ∧ build_report "2026-01-01T00:00:00Z" (VList []) "merge.json"
     = Err (AttributeError "list" "get"))
  ∧ (meta_absent_or_mapping []
     ∧ ∃ rep, build_report "2026-01-01T00:00:00Z" (VDict []) "merge.json" = Ok rep).
Proof.
  destruct (build_report_abort_and_success (H:=ascii_builtins)
              "2026-01-01T00:00:00Z" "merge.json") as [Habort Hok].
  split.
  - split; [reflexivity | exact (Habort (VList []) eq_refl)].
  - split; [by left | apply Hok; by left].
Defined.

(** C2 as stated fails twice.  On the root [[]] the exception is an
    [AttributeError], not a [ShapeError]; and on the mapping
    [{"meta": null}] the evaluation aborts although the root is a
    mapping. *)
Lemma build_report_shape_error_counterexample :
  (¬ ∃ e, build_report "2026-01-01T00:00:00Z" (VList []) "merge.json" = Err e
          ∧ exception_class e = "ShapeError")
  ∧ (is_dict doc_meta_null = true
     ∧ ¬ ∃ rep, build_report "2026-01-01T00:00:00Z" doc_meta_null "merge.json"
                = Ok rep).
Proof.
  split; [|split; [reflexivity|]].
  - intros (e & He & Hclass). vm_compute in He. by inversion He; subst.
  - intros (rep & Hrep). vm_compute in Hrep. discriminate.
Qed.

(** ** The empty document (C5) *)

(** C5.  On the empty document [{}] the evaluation succeeds, the report's
    [coverage_pct] is [None], and the five marker findings fire: warn for
    the orientation anchor [.ai-context.yml] and the tooling directory
    [.wgx/], info for contracts, docs and CI workflows.  (The two other
    findings are the unexpected contract and the missing scope.) *)
Theorem empty_document_report `{PyBuiltins} (now ip : string) :
  ∃ rep, build_report now doc_empty ip = Ok rep
    ∧ coverage_pct rep = VNone
    ∧ findings rep
      = [ finding_010 VNone VNone; finding_017;
          finding_001; finding_002; finding_003; finding_004; finding_005 ]
    ∧ _heuristic_expected_markers (_path_set [])
      = [finding_001; finding_002; finding_003; finding_004; finding_005]
    ∧ (λ f, (code f, severity f))
        <$> [finding_001; finding_002; finding_003; finding_004; finding_005]
      = [ ("HG-SICHTER-001", "warn"); ("HG-SICHTER-002", "warn");
          ("HG-SICHTER-003", "info"); ("HG-SICHTER-004", "info");
          ("HG-SICHTER-005", "info") ].
Proof.
  eexists. split; [by vm_compute|]. by vm_compute.
Qed.

(** ** Order and independence of the rules (C7) *)

Lemma build_report_succeeds `{PyBuiltins} now doc ip fields :
  doc = VDict fields → meta_absent_or_mapping fields →
  ∃ rep, build_report now doc ip = Ok rep.
Proof. intros -> Hm. eexists. by apply build_report_mapping. Qed.

(** C7.  The findings of the report the evaluation returns are the findings
    of [_meta_sanity], in the fixed order of its eight rules, followed by
    the findings of [_heuristic_expected_markers], in the fixed order of
    its five rules.  Every rule is a function of the raw document that
    yields at most one finding, and the findings of the report that carry
    the code of a rule are exactly what that rule yields: no rule depends
    on another.  The evaluation returns a report on every mapping whose
    [meta] is missing or a mapping. *)
Theorem findings_are_rules_in_order `{PyBuiltins} (now ip : string) doc :
  (∀ rep, build_report now doc ip = Ok rep →
     ∃ files ms,
       _list_files doc = Ok files
       ∧ _meta_sanity doc files = Ok ms
       ∧ findings rep = ms ++ _heuristic_expected_markers (_path_set files)
       ∧ ms = run_rules meta_rules doc
       ∧ _heuristic_expected_markers (_path_set files) = run_rules marker_rules doc
       ∧ Forall (λ cr, (length (cr.2 doc) ≤ 1)%nat
                       ∧ with_code cr.1 (findings rep) = cr.2 doc)
           (meta_rules ++ marker_rules))
  ∧ (∀ fields, doc = VDict fields → meta_absent_or_mapping fields →
       ∃ rep, build_report now doc ip = Ok rep).
Proof.
  split; [|apply build_report_succeeds].
  intros rep (fields & -> & Hm & ->)%build_report_inv.
  exists (doc_files (VDict fields)), (run_rules meta_rules (VDict fields)).
  split; [apply list_files_mapping|].
  split; [by apply meta_sanity_rules|].
  split.
  { fold (doc_paths (VDict fields)). rewrite expected_markers_rules.
    apply run_rules_app. }
  split; [done|].
  split; [apply expected_markers_rules|].
  apply Forall_forall. intros [c r] Hin. split.
  - pose proof (rules_emit_at_most_one (VDict fields)) as Hlen.
    rewrite Forall_forall in Hlen. exact (Hlen _ Hin).
  - by apply report_with_code.
Qed.

Lemma findings_are_rules_in_order_witness :
  ∃ rep files ms,
    build_report "2026-01-01T00:00:00Z" doc_other "merge.json" = Ok rep
    ∧ _list_files doc_other = Ok files
    ∧ _meta_sanity doc_other files = Ok ms
    ∧ findings rep = ms ++ _heuristic_expected_markers (_path_set files).
Proof.
  assert (build_report (H:=ascii_builtins) "2026-01-01T00:00:00Z" doc_other
            "merge.json"
          = Ok (report_on_mapping "2026-01-01T00:00:00Z" doc_other "merge.json"))
    as Hrep by (vm_compute; reflexivity).
  destruct (proj1 (findings_are_rules_in_order (H:=ascii_builtins)
                     "2026-01-01T00:00:00Z" "merge.json" doc_other) _ Hrep)
    as (files & ms & Hfiles & Hms & Hfind & _).
  exists (report_on_mapping "2026-01-01T00:00:00Z" doc_other "merge.json"), files, ms.
  split; [exact Hrep|]. split; [exact Hfiles|]. split; [exact Hms | exact Hfind].
Defined.

(** ** The contract rule (C4) *)

Lemma differs_from_false v s : differs_from v s = false ↔ v = VStr s.
Proof.
  destruct v; simpl; try (split; [discriminate | by intros [=]]).
  rewrite negb_false_iff, String.eqb_eq. split; [by intros -> | by intros [=]].
Qed.

Lemma rule_contract_expected `{PyBuiltins} doc :
  expected_contract doc → rule_contract doc = [].
Proof.
  intros [Hc Hv]. unfold rule_contract.
  apply differs_from_false in Hc, Hv. by rewrite Hc, Hv.
Qed.

Lemma rule_contract_unexpected `{PyBuiltins} doc :
  ¬ expected_contract doc →
  ∃ f, rule_contract doc = [f] ∧ severity f = "crit".
Proof.
  intros Hne. unfold rule_contract.
  destruct (differs_from (_safe_get doc ["meta"; "contract"] VNone) "wc-merge-agent")
    eqn:Hc; [by eexists|].
  destruct (differs_from (_safe_get doc ["meta"; "contract_version"] VNone) "v1")
    eqn:Hv; [by eexists|].
  destruct Hne. split; by apply differs_from_false.
Qed.

(** C4.  A document whose [meta.contract] is ["other"] gets exactly one
    finding for the wrong contract, of severity crit, whatever its other
    fields hold.  In general, in the report the evaluation returns, the
    finding occurs exactly once when the declared pair of contract and
    version differs from [wc-merge-agent]/[v1], and not at all when the
    pair is the expected one.  The evaluation returns a report on every
    mapping whose [meta] is missing or a mapping. *)
Theorem wrong_contract_reported `{PyBuiltins} (now ip : string) doc :
  (_safe_get doc ["meta"; "contract"] VNone = VStr "other" →
     ∃ rep f, build_report now doc ip = Ok rep
              ∧ with_code "HG-SICHTER-010" (findings rep) = [f]
              ∧ severity f = "crit")
  ∧ (∀ rep, build_report now doc ip = Ok rep →
       (expected_contract doc → with_code "HG-SICHTER-010" (findings rep) = [])
       ∧ (¬ expected_contract doc →
            ∃ f, with_code "HG-SICHTER-010" (findings rep) = [f]
                 ∧ severity f = "crit"))
  ∧ (∀ fields, doc = VDict fields → meta_absent_or_mapping fields →
       ∃ rep, build_report now doc ip = Ok rep).
Proof.
  assert (∀ fields, with_code "HG-SICHTER-010"
            (findings (report_on_mapping now (VDict fields) ip))
          = rule_contract (VDict fields)) as Hcode.
  { intros fields. apply report_with_code. set_solver. }
  split; [|split; [|apply build_report_succeeds]].
  - intros Hother.
    destruct doc as [| | | | | |fields]; try discriminate.
    assert (meta_absent_or_mapping fields) as Hm.
    { right. cbn [_safe_get] in Hother.
      destruct (dict_lookup "meta" fields) as [[| | | | | |m]|]; try discriminate.
      eauto. }
    destruct (rule_contract_unexpected (VDict fields)) as (f & Hf & Hsev).
    { intros [Hc _]. rewrite Hother in Hc. discriminate. }
    exists (report_on_mapping now (VDict fields) ip), f.
    split; [by apply build_report_mapping|]. by rewrite Hcode.
  - intros rep (fields & -> & Hm & ->)%build_report_inv.
    rewrite Hcode. split.
    + apply rule_contract_expected.
    + apply rule_contract_unexpected.
Qed.

Lemma wrong_contract_reported_witness :
  (∃ rep f, build_report "2026-01-01T00:00:00Z" doc_other "merge.json" = Ok rep
            ∧ with_code "HG-SICHTER-010" (findings rep) = [f]
            ∧ severity f = "crit")
  ∧ (∃ rep, build_report "2026-01-01T00:00:00Z" doc_clean "merge.json" = Ok rep
            ∧ with_code "HG-SICHTER-010" (findings rep) = []).
Proof.
  split.
  - apply (proj1 (wrong_contract_reported (H:=ascii_builtins)
                    "2026-01-01T00:00:00Z" "merge.json" doc_other)).
    reflexivity.
  - assert (build_report (H:=ascii_builtins) "2026-01-01T00:00:00Z" doc_clean
              "merge.json"
            = Ok (report_on_mapping "2026-01-01T00:00:00Z" doc_clean "merge.json"))
      as Hrep by (vm_compute; reflexivity).
    exists (report_on_mapping "2026-01-01T00:00:00Z" doc_clean "merge.json").
    split; [exact Hrep|].
    apply (proj1 (proj2 (wrong_contract_reported (H:=ascii_builtins)
                           "2026-01-01T00:00:00Z" "merge.json" doc_clean))
             _ Hrep).
    split; reflexivity.
Defined.

(** ** The coverage rule (C6) *)

(** The test of the rule, [isinstance(coverage, (int, float)) and
    coverage < 95.0], holds of the JSON numbers below 95.0 and, [bool]
    being a subclass of [int] with [True == 1] and [False == 0], of both
    booleans. *)
Lemma coverage_test_spec v :
  is_int_or_float v && num_ltb v F64.f_95_0 = true
  ↔ number_below_95 v ∨ json_boolean v = true.
Proof.
  destruct v as [|b|z|g|s|l|d];
    cbn [is_int_or_float num_ltb number_below_95 json_boolean andb];
    try (split; [discriminate | by intros [[]|?]]).
  - rewrite Z_ltb_95. split; [by right | by destruct b].
  - rewrite Z_ltb_95, Z.ltb_lt. split; [by left | by intros [?|?]].
  - split; [by left | by intros [?|?]].
Qed.

Lemma rule_coverage_fires `{PyBuiltins} doc :
  number_below_95 (_safe_get doc ["coverage"; "coverage_pct"] VNone)
  ∨ json_boolean (_safe_get doc ["coverage"; "coverage_pct"] VNone) = true →
  ∃ f, rule_coverage doc = [f] ∧ severity f = "warn".
Proof.
  intros Hlow%coverage_test_spec. unfold rule_coverage. rewrite Hlow.
  by eexists.
Qed.

Lemma rule_coverage_silent `{PyBuiltins} doc :
  ¬ number_below_95 (_safe_get doc ["coverage"; "coverage_pct"] VNone) →
  json_boolean (_safe_get doc ["coverage"; "coverage_pct"] VNone) = false →
  rule_coverage doc = [].
Proof.
  intros Hge Hbool. unfold rule_coverage.
  destruct (is_int_or_float _ && num_ltb _ F64.f_95_0) eqn:Hlow; [|done].
  apply coverage_test_spec in Hlow as [?|Hb]; [done|].
  by rewrite Hb in Hbool.
Qed.

(** C6 (as amended).  In the report the evaluation returns: when
    [coverage.coverage_pct] is present and is a JSON number strictly below
    95.0, or is a JSON boolean, the findings hold the low-coverage finding
    HG-SICHTER-011, once, with severity warn; when it is neither, that is a
    number of 95.0 or more, a NaN, [null], a string, a list, a mapping, or
    missing, the finding is not emitted.  The booleans are in the first
    half because the rule tests [isinstance(coverage, (int, float))], which
    Python's [bool], a subclass of [int], passes, and [True] and [False]
    compare as 1 and 0.  The evaluation returns a report on every mapping
    whose [meta] is missing or a mapping. *)
Theorem low_coverage_reported `{PyBuiltins} (now ip : string) doc :
  (∀ rep, build_report now doc ip = Ok rep →
     (number_below_95 (_safe_get doc ["coverage"; "coverage_pct"] VNone)
      ∨ json_boolean (_safe_get doc ["coverage"; "coverage_pct"] VNone) = true →
        ∃ f, with_code "HG-SICHTER-011" (findings rep) = [f]
             ∧ severity f = "warn")
     ∧ (¬ number_below_95 (_safe_get doc ["coverage"; "coverage_pct"] VNone) →
        json_boolean (_safe_get doc ["coverage"; "coverage_pct"] VNone) = false →
          with_code "HG-SICHTER-011" (findings rep) = []))
  ∧ (∀ fields, doc = VDict fields → meta_absent_or_mapping fields →
       ∃ rep, build_report now doc ip = Ok rep).
Proof.
  split; [|apply build_report_succeeds].
  intros rep (fields & -> & Hm & ->)%build_report_inv.
  rewrite (report_with_code _ _ _ "HG-SICHTER-011" rule_coverage) by set_solver.
  split; [apply rule_coverage_fires | apply rule_coverage_silent].
Qed.

Lemma low_coverage_reported_witness :
  ∃ rep f, build_report "2026-01-01T00:00:00Z" doc_other "merge.json" = Ok rep
           ∧ with_code "HG-SICHTER-011" (findings rep) = [f]
           ∧ severity f = "warn".
Proof.
  assert (build_report (H:=ascii_builtins) "2026-01-01T00:00:00Z" doc_other
            "merge.json"
          = Ok (report_on_mapping "2026-01-01T00:00:00Z" doc_other "merge.json"))
    as Hrep by (vm_compute; reflexivity).
  destruct (proj1 (proj1 (low_coverage_reported (H:=ascii_builtins)
                            "2026-01-01T00:00:00Z" "merge.json" doc_other)
                     _ Hrep))
    as (f & Hf & Hsev); [left; simpl; lia|].
  exists (report_on_mapping "2026-01-01T00:00:00Z" doc_other "merge.json"), f.
  split; [exact Hrep|]. split; [exact Hf | exact Hsev].
Defined.

(** The claim as first worded, with no finding for a [coverage_pct] that
    is not numeric, fails on [{"coverage": {"coverage_pct": true}}]: the
    value is a boolean, no JSON number, so no number below 95.0, and the
    evaluation returns a report whose findings hold HG-SICHTER-011, with
    severity warn and the detail [Coverage True%: ...]. *)
Lemma low_coverage_boolean_counterexample :
  _safe_get doc_coverage_true ["coverage"; "coverage_pct"] VNone = VBool true
  ∧ json_number (VBool true) = false
  ∧ ¬ number_below_95 (VBool true)
  ∧ ∃ rep f,
      build_report (H:=ascii_builtins) "2026-01-01T00:00:00Z"
        doc_coverage_true "merge.json" = Ok rep
      ∧ with_code "HG-SICHTER-011" (findings rep) = [f]
      ∧ code f = "HG-SICHTER-011"
      ∧ severity f = "warn"
      ∧ detail f
        = "Coverage True%: Hohe Chance auf blinde Flecken. Befunde sind eher Tendenzen als Aussagen.".
Proof.
  split; [reflexivity|]. split; [reflexivity|]. split; [by intros []|].
  exists (report_on_mapping (H:=ascii_builtins) "2026-01-01T00:00:00Z"
            doc_coverage_true "merge.json"),
         (finding_011 (H:=ascii_builtins) (VBool true)).
  split; [vm_compute; reflexivity|].
  split; [vm_compute; reflexivity|].
  split; [reflexivity|]. split; [reflexivity|].
  vm_compute; reflexivity.
Qed.

(** ** The uncertainty assessment (C3, C10) *)

Lemma uncertainty_sum_score doc :
  (uncertainty_sum doc).1
  = score_of (coverage_below_100 doc) (filters_active doc) (reduced_context doc).
Proof.
  unfold uncertainty_sum, score_of, plus_if.
  by destruct (coverage_below_100 doc), (filters_active doc), (reduced_context doc).
Qed.

Lemma score_of_bounds b1 b2 b3 :
  SFleb F64.f_0_18 (score_of b1 b2 b3) = true
  ∧ SFleb (score_of b1 b2 b3) F64.f_0_48_up = true
  ∧ clamp (score_of b1 b2 b3) = score_of b1 b2 b3.
Proof. destruct b1, b2, b3; by vm_compute. Qed.

Lemma uncertainty_unfold doc :
  _uncertainty doc
  = [ ("uncertainty_score", VFloat (clamp (uncertainty_sum doc).1));
      ("causes",
       VList (VStr <$> match (uncertainty_sum doc).2 with
                       | [] => [cause_none]
                       | _ => (uncertainty_sum doc).2
                       end));
      ("note", VStr uncertainty_note) ].
Proof. unfold _uncertainty. by destruct (uncertainty_sum doc). Qed.

(** C3.  For every document, a mapping or not, the uncertainty assessment
    has a score in the closed interval [0, 0.95] and a sequence of causes
    that is not empty; when no increment fired, the causes are the one
    sentinel string.  The assessment of a report is this one. *)
Theorem uncertainty_score_and_causes :
  (∀ doc, ∃ score causes,
     _uncertainty doc
     = [ ("uncertainty_score", VFloat score);
         ("causes", VList (VStr <$> causes));
         ("note", VStr uncertainty_note) ]
     ∧ SFleb F64.f_0_0 score = true
     ∧ SFleb score F64.f_0_95 = true
     ∧ causes ≠ []
     ∧ (coverage_below_100 doc = false → filters_active doc = false →
        reduced_context doc = false → causes = [cause_none]))
  ∧ (∀ (H : PyBuiltins) now doc ip rep,
       build_report now doc ip = Ok rep → uncertainty rep = _uncertainty doc).
Proof.
  split.
  - intros doc. eexists _, _. split; [apply uncertainty_unfold|].
    unfold uncertainty_sum.
    destruct (coverage_below_100 doc), (filters_active doc), (reduced_context doc);
      by vm_compute.
  - intros H now doc ip rep Hrep.
    by apply build_report_inv in Hrep as (fields & -> & _ & ->).
Qed.

Lemma uncertainty_score_and_causes_witness :
  ∃ rep, build_report "2026-01-01T00:00:00Z" doc_other "merge.json" = Ok rep
         ∧ uncertainty rep = _uncertainty doc_other.
Proof.
  assert (meta_absent_or_mapping fields_other) as Hm by (right; eexists; reflexivity).
  pose proof (build_report_mapping (H:=ascii_builtins)
                "2026-01-01T00:00:00Z" fields_other "merge.json" Hm) as Hrep.
  eexists. split; [exact Hrep|].
  exact (proj2 uncertainty_score_and_causes ascii_builtins _ _ _ _ Hrep).
Defined.

(** C10 (as amended).  The score is the baseline 0.18 plus, added in
    binary64 in the order of the source, those of the increments 0.10, 0.08
    and 0.12 whose test holds.  It lies between 0.18 and
    0.48000000000000004, the sum of all four, reached when the three tests
    hold and one unit in the last place above 0.48.  The clamp into
    [0, 0.95] never changes it. *)
Theorem uncertainty_score_is_a_sum doc :
  (uncertainty_sum doc).1
  = score_of (coverage_below_100 doc) (filters_active doc) (reduced_context doc)
  ∧ SFleb F64.f_0_18 (uncertainty_sum doc).1 = true
  ∧ SFleb (uncertainty_sum doc).1 F64.f_0_48_up = true
  ∧ score_of true true true = F64.f_0_48_up
  ∧ clamp (uncertainty_sum doc).1 = (uncertainty_sum doc).1
  ∧ dict_lookup "uncertainty_score" (_uncertainty doc)
    = Some (VFloat (uncertainty_sum doc).1).
Proof.
  rewrite uncertainty_unfold, uncertainty_sum_score.
  destruct (score_of_bounds (coverage_below_100 doc) (filters_active doc)
              (reduced_context doc)) as (Hlo & Hhi & Hclamp).
  rewrite Hclamp. by repeat split.
Qed.

(** C10 as stated fails on the upper bound.  With reduced coverage, an
    active filter and [plan_only] the score is 0.18 + 0.10 + 0.08 + 0.12 in
    binary64, which is 0.48000000000000004 = 8646911284551353 / 2^54,
    above the float 0.48 and above the real number 48/100. *)
Lemma uncertainty_score_above_0_48 :
  dict_lookup "uncertainty_score" (_uncertainty doc_other)
  = Some (VFloat F64.f_0_48_up)
  ∧ SFleb F64.f_0_48_up F64.f_0_48 = false
  ∧ SFltb F64.f_0_48 F64.f_0_48_up = true
  ∧ 48 * 2 ^ 54 < 100 * 8646911284551353.
Proof. by vm_compute. Qed.

(** ** Directory markers and the file marker (C8) *)

Lemma prefix_app pre p : String.prefix pre p = true ↔ ∃ rest, p = pre +:+ rest.
Proof.
  revert p. induction pre as [|a pre IH]; intros p.
  - split; [intros _; exists p; reflexivity | by destruct p].
  - destruct p as [|b p]; simpl.
    + split; [discriminate | by intros [? ?]].
    + destruct (ascii_dec a b) as [->|Hab].
      * rewrite IH. split; intros [rest Hrest]; exists rest.
        -- by subst p.
        -- change (String b p = String b (pre +:+ rest)) in Hrest.
           by injection Hrest.
      * split; [discriminate|]. intros [rest Hrest].
        change (String b p = String a (pre +:+ rest)) in Hrest.
        injection Hrest as ? ?. by destruct Hab.
Qed.

Lemma has_prefix_spec (paths : gset string) pre :
  has_prefix paths pre = true
  ↔ ∃ p, p ∈ paths ∧ ∃ rest, p = (rstrip "/" pre +:+ "/") +:+ rest.
Proof.
  unfold has_prefix, startswith. rewrite existsb_exists.
  split; intros (p & Hp & Hpre); exists p.
  - apply list_elem_of_In, elem_of_elements in Hp. by apply prefix_app in Hpre.
  - split; [by apply list_elem_of_In, elem_of_elements | by apply prefix_app].
Qed.

Lemma expected_markers_unfold (paths : gset string) :
  _heuristic_expected_markers paths
  = when (negb (bool_decide (".ai-context.yml" ∈ paths))
          && negb (has_prefix paths ".ai-context.yml/")) finding_001
    ++ when (negb (has_prefix paths ".wgx/")) finding_002
    ++ when (negb (has_prefix paths "contracts/")) finding_003
    ++ when (negb (has_prefix paths "docs/") && negb (has_prefix paths "doc/"))
         finding_004
    ++ when (negb (has_prefix paths ".github/workflows/")) finding_005.
Proof.
  unfold _heuristic_expected_markers. rewrite !append_if_when.
  simpl app at 1. by rewrite <- !app_assoc.
Qed.

Lemma elem_of_when_iff c f g : g ∈ when c f ↔ c = true ∧ g = f.
Proof.
  destruct c; simpl.
  - rewrite list_elem_of_singleton. split; [by intros -> | by intros [_ ->]].
  - split; [by intros Hg%elem_of_nil | by intros [? _]].
Qed.

(** C8.  For every set of observed paths: the finding for a missing [.wgx/]
    is raised unless some path starts with [.wgx/], so the path [.wgx]
    itself does not satisfy the marker; the finding for a missing
    [.ai-context.yml] is raised unless that very path is observed or some
    path starts with [.ai-context.yml/]. *)
Theorem directory_marker_needs_separator (paths : gset string) :
  (finding_002 ∈ _heuristic_expected_markers paths
   ↔ ¬ ∃ p, p ∈ paths ∧ ∃ rest, p = ".wgx/" +:+ rest)
  ∧ (".wgx" ∈ paths →
     (∀ p, p ∈ paths → ¬ ∃ rest, p = ".wgx/" +:+ rest) →
     finding_002 ∈ _heuristic_expected_markers paths)
  ∧ (finding_001 ∈ _heuristic_expected_markers paths
     ↔ ¬ (".ai-context.yml" ∈ paths
          ∨ ∃ p, p ∈ paths ∧ ∃ rest, p = ".ai-context.yml/" +:+ rest)).
Proof.
  assert (finding_002 ∈ _heuristic_expected_markers paths
          ↔ ¬ ∃ p, p ∈ paths ∧ ∃ rest, p = ".wgx/" +:+ rest) as Hwgx.
  { rewrite expected_markers_unfold, !elem_of_app, !elem_of_when_iff.
    rewrite <- (has_prefix_spec paths ".wgx/"), negb_true_iff, not_true_iff_false.
    split; [|by auto].
    intros [[_ [=]] | [[? _] | [[_ [=]] | [[_ [=]] | [_ [=]]]]]]. done. }
  split; [exact Hwgx|]. split.
  - intros _ Hnone. apply Hwgx. intros (p & Hp & Hrest). exact (Hnone p Hp Hrest).
  - rewrite expected_markers_unfold, !elem_of_app, !elem_of_when_iff.
    rewrite <- (has_prefix_spec paths ".ai-context.yml/").
    rewrite andb_true_iff, !negb_true_iff, bool_decide_eq_false,
      <- not_true_iff_false.
    split.
    + intros [[[Hfile Hdir] _] | [[_ [=]] | [[_ [=]] | [[_ [=]] | [_ [=]]]]]].
      by intros [?|?].
    + intros Hnone. left. split; [|done]. split; intros ?; apply Hnone; auto.
Qed.

Lemma directory_marker_needs_separator_witness :
  ".wgx" ∈ ({[ ".wgx" ]} : gset string)
  ∧ finding_002 ∈ _heuristic_expected_markers {[ ".wgx" ]}
  ∧ finding_001 ∉ _heuristic_expected_markers {[ ".ai-context.yml" ]}.
Proof.
  split; [by apply elem_of_singleton|]. split.
  - apply (proj1 (proj2 (directory_marker_needs_separator {[ ".wgx" ]}))).
    + by apply elem_of_singleton.
    + intros p ->%elem_of_singleton [rest [=]].
  - intros Hin.
    apply (proj2 (proj2 (directory_marker_needs_separator {[ ".ai-context.yml" ]})))
      in Hin.
    apply Hin. left. by apply elem_of_singleton.
Defined.

(** ** The mirror carries the whole report (C9) *)

Lemma finding_of_mirror_asdict f : finding_of_mirror (asdict_finding f) = Some f.
Proof. by destruct f. Qed.

(** C9.  Reading the structured-data mirror of a report back reconstructs
    the report, every field of it: the time stamp, the agent, the input
    path, [meta], the scope, [coverage_pct], [files_total], the whole
    sequence of findings and the uncertainty assessment.  This holds of
    every report, so of every report the evaluation produces. *)
Theorem mirror_round_trip :
  (∀ rep, report_of_mirror (asdict rep) = Some rep)
  ∧ (∀ (H : PyBuiltins) now doc ip rep,
       build_report now doc ip = Ok rep →
       report_of_mirror (asdict rep) = Some rep).
Proof.
  assert (∀ rep, report_of_mirror (asdict rep) = Some rep) as Hround.
  { intros [g a i m sc cov tot fs u].
    unfold report_of_mirror, asdict. cbn -[mapM].
    rewrite (mapM_fmap_Some finding_of_mirror asdict_finding fs)
      by apply finding_of_mirror_asdict.
    reflexivity. }
  split; [exact Hround | intros; apply Hround].
Qed.

Lemma mirror_round_trip_witness :
  ∃ rep, build_report "2026-01-01T00:00:00Z" doc_other "merge.json" = Ok rep
         ∧ report_of_mirror (asdict rep) = Some rep.
Proof.
  assert (meta_absent_or_mapping fields_other) as Hm by (right; eexists; reflexivity).
  pose proof (build_report_mapping (H:=ascii_builtins)
                "2026-01-01T00:00:00Z" fields_other "merge.json" Hm) as Hrep.
  eexists. split; [exact Hrep|].
  exact (proj2 mirror_round_trip ascii_builtins _ _ _ _ Hrep).
Defined.

(** ** Duplicate paths (C1) *)

Lemma string_app_cons x (a b : string) : String x a +:+ b = String x (a +:+ b).
Proof. reflexivity. Qed.

Lemma string_app_nil_r (a : string) : a +:+ EmptyString = a.
Proof. induction a as [|x a IH]; [done|]. by rewrite string_app_cons, IH. Qed.

Lemma string_app_assoc (a b c : string) : (a +:+ b) +:+ c = a +:+ b +:+ c.
Proof. induction a as [|x a IH]; [done|]. by rewrite !string_app_cons, IH. Qed.

Lemma occurs_in_app q before s after :
  occurs_in q s → occurs_in q (before +:+ s +:+ after).
Proof.
  intros (b & a & ->). exists (before +:+ b), (a +:+ after).
  by rewrite !string_app_assoc.
Qed.

Lemma occurs_in_join sep l q : q ∈ l → occurs_in q (join sep l).
Proof.
  unfold join. induction l as [|x l IH]; intros Hq.
  { by apply elem_of_nil in Hq. }
  apply elem_of_cons in Hq as [-> | Hq].
  - destruct l as [|y l]; cbn [String.concat].
    + exists EmptyString, EmptyString. change (EmptyString +:+ x +:+ EmptyString) with (x +:+ EmptyString).
      by rewrite string_app_nil_r.
    + by exists EmptyString, (sep +:+ String.concat sep (y :: l)).
  - destruct l as [|y l]; [by apply elem_of_nil in Hq|].
    change (String.concat sep (x :: y :: l))
      with (x +:+ sep +:+ String.concat sep (y :: l)).
    destruct (IH Hq) as (b & a & ->).
    exists (x +:+ sep +:+ b), a. by rewrite !string_app_assoc.
Qed.

Lemma record_count_cons p f files :
  record_count p (f :: files)
  = ((if decide (item_path (VDict f) = Some p) then 1 else 0)
     + record_count p files)%nat.
Proof.
  unfold record_count.
  destruct (decide (item_path (VDict f) = Some p)) as [Hp|Hp].
  - by rewrite filter_cons_True.
  - by rewrite filter_cons_False.
Qed.

Lemma path_count_records p raw :
  path_count p raw = record_count p (omap as_dict raw).
Proof.
  unfold path_count. induction raw as [|v raw IH]; [done|].
  destruct v as [| | | | | |d]; cbn [omap list_omap as_dict];
    try (rewrite filter_cons_False by done; exact IH).
  rewrite record_count_cons.
  destruct (decide (item_path (VDict d) = Some p)) as [Hp|Hp].
  - rewrite filter_cons_True by done. cbn [length]. by rewrite IH.
  - rewrite filter_cons_False by done. by rewrite IH.
Qed.

(** The loop body of [_count_duplicates], by the path of the record. *)
Lemma count_duplicates_step_path st f :
  count_duplicates_step st f
  = match item_path (VDict f) with
    | Some p => ({[p]} ∪ st.1, if decide (p ∈ st.1) then {[p]} ∪ st.2 else st.2)
    | None => st
    end.
Proof.
  unfold count_duplicates_step, item_path, dict_get.
  destruct (dict_lookup "path" f) as [[]|]; by cbn [default].
Qed.

(** The invariant of the loop: [seen] gains the paths met, [dups] those met
    twice, or once when already in [seen]. *)
Lemma count_duplicates_loop files (seen dups : gset string) q :
  (q ∈ (foldl count_duplicates_step (seen, dups) files).1
   ↔ q ∈ seen ∨ (1 ≤ record_count q files)%nat)
  ∧ (q ∈ (foldl count_duplicates_step (seen, dups) files).2
     ↔ q ∈ dups ∨ (2 ≤ record_count q files)%nat
       ∨ (q ∈ seen ∧ (1 ≤ record_count q files)%nat)).
Proof.
  revert seen dups.
  induction files as [|f files IH]; intros seen dups.
  { cbn [foldl fst snd]. change (record_count q []) with 0%nat.
    split; split;
      [ auto | intros [?|?]; [done|lia]
      | auto | intros [?|[?|[_ ?]]]; [done|lia|lia] ]. }
  cbn [foldl]. rewrite count_duplicates_step_path, record_count_cons.
  destruct (item_path (VDict f)) as [p|] eqn:Hp; cbn [fst snd].
  - destruct (IH ({[p]} ∪ seen)
                (if decide (p ∈ seen) then {[p]} ∪ dups else dups)) as [IH1 IH2].
    rewrite IH1, IH2. clear IH IH1 IH2.
    destruct (decide (Some p = Some q)) as [[= ->]|Hne].
    + destruct (decide (q ∈ seen)) as [Hs|Hs];
        rewrite ?elem_of_union, ?elem_of_singleton; naive_solver lia.
    + assert (q ≠ p) as Hqp by congruence.
      destruct (decide (p ∈ seen)) as [Hs|Hs];
        rewrite ?elem_of_union, ?elem_of_singleton; naive_solver lia.
  - destruct (IH seen dups) as [IH1 IH2]. rewrite IH1, IH2.
    destruct (decide (None = Some q)); [done|]. cbn [Nat.add]. split; tauto.
Qed.

Lemma count_duplicates_spec files q :
  q ∈ _count_duplicates files ↔ (2 ≤ record_count q files)%nat.
Proof.
  unfold _count_duplicates, sorted.
  rewrite merge_sort_Permutation, elem_of_elements.
  rewrite (proj2 (count_duplicates_loop files ∅ ∅ q)). set_solver.
Qed.

Lemma count_duplicates_sorted files :
  StronglySorted String.le (_count_duplicates files) ∧ NoDup (_count_duplicates files).
Proof.
  unfold _count_duplicates, sorted. split.
  - apply (StronglySorted_merge_sort _).
  - rewrite merge_sort_Permutation. apply NoDup_elements.
Qed.

Lemma str_le_ne_lt a b : String.le a b → a ≠ b → str_lt a b.
Proof.
  unfold String.le, String.leb, str_lt. intros Hle Hne.
  destruct (String.compare a b) eqn:Hcmp; [|done|done].
  by apply String.compare_eq_iff in Hcmp.
Qed.

Lemma sorted_nodup_strict l :
  StronglySorted String.le l → NoDup l → StronglySorted str_lt l.
Proof.
  induction 1 as [|x l Hl IH Hx]; intros Hnd; [constructor|].
  apply NoDup_cons in Hnd as [Hxl Hnd]. constructor; [by apply IH|].
  rewrite Forall_forall in Hx |- *. intros y Hy.
  apply str_le_ne_lt; [by apply Hx | by intros ->].
Qed.

(** C1.  When two or more file records of the document declare the same
    path, the findings of the report the evaluation returns hold exactly
    one finding with the code HG-SICHTER-015; it is of severity crit, and
    its detail lists the duplicated paths: exactly the paths that two or
    more records declare, strictly ascending in lexicographic order, the
    first 50 of them joined by commas, followed by an ellipsis when there
    are more than 50.  Every listed path occurs in the detail, so every
    duplicated path does when there are at most 50.  The evaluation
    returns a report on every mapping whose [meta] is missing or a
    mapping. *)
Theorem duplicate_paths_reported `{PyBuiltins} (now ip : string) doc raw p :
  _safe_get doc ["files"] VNone = VList raw →
  (2 ≤ path_count p raw)%nat →
  (∀ rep, build_report now doc ip = Ok rep →
     ∃ f dups,
       with_code "HG-SICHTER-015" (findings rep) = [f]
       ∧ severity f = "crit"
       ∧ detail f
         = "Folgende Pfade sind mehrfach enthalten: "
           +:+ join ", " (take 50 dups)
           +:+ (if (50 <? length dups)%nat then " …" else EmptyString)
       ∧ (∀ q, q ∈ dups ↔ (2 ≤ path_count q raw)%nat)
       ∧ StronglySorted str_lt dups
       ∧ (∀ q, q ∈ take 50 dups → occurs_in q (detail f))
       ∧ ((length dups ≤ 50)%nat →
          ∀ q, (2 ≤ path_count q raw)%nat → occurs_in q (detail f)))
  ∧ (∀ fields, doc = VDict fields → meta_absent_or_mapping fields →
       ∃ rep, build_report now doc ip = Ok rep).
Proof.
  intros Hraw Hp. split; [|apply build_report_succeeds].
  intros rep (fields & -> & Hm & ->)%build_report_inv.
  set (dups := _count_duplicates (doc_files (VDict fields))).
  assert (∀ q, q ∈ dups ↔ (2 ≤ path_count q raw)%nat) as Hdups.
  { intros q. unfold dups, doc_files.
    by rewrite Hraw, count_duplicates_spec, path_count_records. }
  assert (∀ q, q ∈ take 50 dups → occurs_in q (detail (finding_015 dups))) as Hocc.
  { intros q Hq. cbn [detail finding_015].
    by apply occurs_in_app, occurs_in_join. }
  exists (finding_015 dups), dups.
  split.
  { rewrite (report_with_code _ _ _ "HG-SICHTER-015" rule_duplicates) by set_solver.
    unfold rule_duplicates. fold dups.
    destruct dups as [|d dups'] eqn:Hd; [|done].
    apply Hdups in Hp. by apply elem_of_nil in Hp. }
  split; [done|]. split; [done|]. split; [exact Hdups|].
  split.
  { destruct (count_duplicates_sorted (doc_files (VDict fields))).
    by apply sorted_nodup_strict. }
  split; [exact Hocc|].
  intros Hlen q Hq. apply Hocc. rewrite take_ge by done. by apply Hdups.
Qed.

Lemma duplicate_paths_reported_witness :
  ∃ rep f,
    build_report "2026-01-01T00:00:00Z" doc_other "merge.json" = Ok rep
    ∧ with_code "HG-SICHTER-015" (findings rep) = [f]
    ∧ detail f = "Folgende Pfade sind mehrfach enthalten: a, b".
Proof.
  assert (build_report (H:=ascii_builtins) "2026-01-01T00:00:00Z" doc_other
            "merge.json"
          = Ok (report_on_mapping "2026-01-01T00:00:00Z" doc_other "merge.json"))
    as Hrep by (vm_compute; reflexivity).
  assert (2 ≤ path_count "a" files_other)%nat as Hp by (vm_compute; lia).
  destruct (proj1 (duplicate_paths_reported (H:=ascii_builtins)
                     "2026-01-01T00:00:00Z" "merge.json" doc_other files_other "a"
                     eq_refl Hp) _ Hrep)
    as (f & dups & Hf & _).
  exists (report_on_mapping "2026-01-01T00:00:00Z" doc_other "merge.json"), f.
  split; [exact Hrep|]. split; [exact Hf|].
  vm_compute in Hf. injection Hf as <-. reflexivity.
Defined.

(** ** Scenarios *)

(** The scenario of the spec with the expected contract, full coverage and
    the single file [README.md]: the five marker findings and the missing
    scope, nothing critical. *)
Example clean_document_findings :
  (λ r, (λ f, (code f, severity f)) <$> findings r)
    <$> build_report "2026-01-01T00:00:00Z" doc_clean "merge.json"
  = Ok [ ("HG-SICHTER-017", "warn");
         ("HG-SICHTER-001", "warn"); ("HG-SICHTER-002", "warn");
         ("HG-SICHTER-003", "info"); ("HG-SICHTER-004", "info");
         ("HG-SICHTER-005", "info") ].
Proof. by vm_compute. Qed.

(** A foreign contract, coverage 50, a path filter and duplicates: the
    path [.wgx] does not stand for the directory [.wgx/]. *)
Example other_document_findings :
  (λ r, (λ f, (code f, severity f)) <$> findings r)
    <$> build_report "2026-01-01T00:00:00Z" doc_other "merge.json"
  = Ok [ ("HG-SICHTER-010", "crit"); ("HG-SICHTER-011", "warn");
         ("HG-SICHTER-013", "info"); ("HG-SICHTER-015", "crit");
         ("HG-SICHTER-017", "warn");
         ("HG-SICHTER-001", "warn"); ("HG-SICHTER-002", "warn");
         ("HG-SICHTER-003", "info"); ("HG-SICHTER-004", "info");
         ("HG-SICHTER-005", "info") ].
Proof. by vm_compute. Qed.

(** A boolean passes [isinstance(x, (int, float))]: [true] is reported as a
    coverage of [True%]. *)
Example boolean_coverage_finding :
  with_code "HG-SICHTER-011"
    <$> (findings
           <$> build_report "2026-01-01T00:00:00Z"
                 (VDict [("coverage", VDict [("coverage_pct", VBool true)])])
                 "merge.json")
  = Ok [ finding_011 (VBool true) ]
  ∧ detail (finding_011 (VBool true))
    = "Coverage True%: Hohe Chance auf blinde Flecken. Befunde sind eher Tendenzen als Aussagen.".
Proof. by vm_compute. Qed.

(** * Further properties *)

(** ** Reading the document *)

Lemma safe_get_nil d dflt : _safe_get d [] dflt = d.
Proof. reflexivity. Qed.

(** X1.  [_safe_get] along a key path made of two parts is [_safe_get]
    along the second part from the value the first part leads to, and the
    default when the first part meets a missing key or a value that is no
    mapping.  In particular it returns what the whole path leads to, a
    stored [None] included, and the default only when the path breaks. *)
Theorem safe_get_follows_path d ks1 ks2 dflt :
  _safe_get d (ks1 ++ ks2) dflt
  = match follow d ks1 with
    | Some cur => _safe_get cur ks2 dflt
    | None => dflt
    end.
Proof.
  revert d. induction ks1 as [|k ks1 IH]; intros d; [done|].
  cbn [app _safe_get follow].
  destruct d as [| | | | | |m]; try done.
  destruct (dict_lookup k m) as [cur|]; [apply IH | done].
Qed.

Lemma omap_as_dict_filter (raw : list value) :
  VDict <$> omap as_dict raw = filter (λ v, is_dict v = true) raw.
Proof.
  induction raw as [|v raw IH]; [done|].
  destruct v; cbn [omap list_omap as_dict fmap list_fmap];
    (rewrite filter_cons_True by done) || (rewrite filter_cons_False by done);
    by rewrite <- ?IH.
Qed.

(** X2.  On a mapping [_list_files] returns the entries of [files] that are
    mappings, all of them and in their order, and nothing when [files] is
    missing or no list; on a root that is no mapping it raises
    [AttributeError]. *)
Theorem list_files_keeps_mappings doc :
  (∀ fields, doc = VDict fields →
     ∃ fs, _list_files doc = Ok fs
       ∧ VDict <$> fs
         = match dict_lookup "files" fields with
           | Some (VList raw) => filter (λ v, is_dict v = true) raw
           | _ => []
           end)
  ∧ (is_dict doc = false →
     _list_files doc = Err (AttributeError (type_name doc) "get")).
Proof.
  split.
  - intros fields ->. exists (doc_files (VDict fields)).
    split; [apply list_files_mapping|].
    unfold doc_files. cbn [_safe_get].
    destruct (dict_lookup "files" fields) as [[]|]; try done.
    apply omap_as_dict_filter.
  - by destruct doc.
Qed.

Lemma list_files_keeps_mappings_witness :
  (∃ fs, _list_files doc_other = Ok fs
     ∧ VDict <$> fs
       = [ file_record "b"; file_record "a"; file_record "b";
           file_record ".wgx"; file_record "a" ])
  ∧ _list_files (VStr "x") = Err (AttributeError "str" "get").
Proof.
  split.
  - destruct (proj1 (list_files_keeps_mappings doc_other) fields_other eq_refl)
      as (fs & Hfs & Hmap).
    exists fs. split; [exact Hfs | exact Hmap].
  - exact (proj2 (list_files_keeps_mappings (VStr "x")) eq_refl).
Defined.

Lemma path_set_loop (files : list dict) (acc : gset string) p :
  p ∈ foldl (λ out f,
               match dict_get f "path" VNone with
               | VStr q => {[q]} ∪ out
               | _ => out
               end) acc files
  ↔ p ∈ acc ∨ ∃ f, f ∈ files ∧ dict_lookup "path" f = Some (VStr p).
Proof.
  revert acc. induction files as [|f files IH]; intros acc; cbn [foldl].
  { split; [by left | intros [?|(f & Hf & _)]; [done | by apply elem_of_nil in Hf]]. }
  rewrite IH. setoid_rewrite elem_of_cons. unfold dict_get.
  destruct (dict_lookup "path" f) as [[| | | |q| |]|] eqn:Hf;
    cbn [default from_option id];
    rewrite ?elem_of_union, ?elem_of_singleton; naive_solver.
Qed.

Lemma path_set_spec (files : list dict) p :
  p ∈ _path_set files ↔ ∃ f, f ∈ files ∧ dict_lookup "path" f = Some (VStr p).
Proof.
  unfold _path_set. rewrite path_set_loop. split; [|by right].
  intros [Hp|?]; [|done]. by apply elem_of_empty in Hp.
Qed.

(** X3.  A path is in [_path_set(files)] exactly when some record of
    [files] declares it as a string: records without [path], or with a
    [path] that is no string, add nothing. *)
Theorem path_set_holds_declared_paths (files : list dict) p :
  p ∈ _path_set files ↔ ∃ f, f ∈ files ∧ dict_lookup "path" f = Some (VStr p).
Proof. apply path_set_spec. Qed.

(** ** Duplicates *)

Lemma record_path_Some f p :
  record_path f = Some p ↔ dict_lookup "path" f = Some (VStr p).
Proof.
  unfold record_path, item_path.
  destruct (dict_lookup "path" f) as [[]|]; naive_solver.
Qed.

Lemma record_count_positive (files : list dict) p :
  (1 ≤ record_count p files)%nat ↔ p ∈ omap record_path files.
Proof.
  induction files as [|f files IH].
  { change (record_count p []) with 0%nat. cbn [omap list_omap].
    split; [lia | by intros ?%elem_of_nil]. }
  rewrite record_count_cons. cbn [omap list_omap].
  change (item_path (VDict f)) with (record_path f).
  destruct (record_path f) as [q|]; [rewrite elem_of_cons|];
    case_decide; naive_solver lia.
Qed.

Lemma record_paths_distinct (files : list dict) :
  NoDup (omap record_path files) ↔ ∀ q, (record_count q files ≤ 1)%nat.
Proof.
  induction files as [|f files IH].
  { cbn [omap list_omap]. split; [|intros; constructor].
    intros _ q. change (record_count q []) with 0%nat. lia. }
  cbn [omap list_omap]. setoid_rewrite record_count_cons.
  change (item_path (VDict f)) with (record_path f).
  destruct (record_path f) as [p|].
  - rewrite NoDup_cons, IH, <- record_count_positive. split.
    + intros [Hp Hrest] q. specialize (Hrest q). case_decide; [|lia].
      assert (q = p) as -> by congruence. lia.
    + intros Hall. split.
      * specialize (Hall p). rewrite decide_True in Hall by done. lia.
      * intros q. specialize (Hall q). case_decide; lia.
  - rewrite IH. split; intros Hall q; specialize (Hall q);
      rewrite ?decide_False in * by done; lia.
Qed.

Lemma record_count_permutation (files files' : list dict) q :
  files ≡ₚ files' → record_count q files = record_count q files'.
Proof. intros Hperm. unfold record_count. by rewrite Hperm. Qed.

(** X4.  Every path [_count_duplicates] reports is a path of
    [_path_set], and it reports nothing exactly when the string paths of
    the records are pairwise distinct. *)
Theorem no_duplicates_iff_paths_distinct (files : list dict) :
  (∀ q, q ∈ _count_duplicates files → q ∈ _path_set files)
  ∧ (_count_duplicates files = [] ↔ NoDup (omap record_path files)).
Proof.
  split.
  - intros q Hq%count_duplicates_spec.
    assert (q ∈ omap record_path files) as Hin
      by (apply record_count_positive; lia).
    apply list_elem_of_omap in Hin as (f & Hf & Hp).
    apply path_set_spec. exists f. split; [done|]. by apply record_path_Some.
  - rewrite record_paths_distinct. split.
    + intros Hnil q.
      destruct (decide (2 ≤ record_count q files)%nat) as [Hq|]; [|lia].
      apply count_duplicates_spec in Hq. rewrite Hnil in Hq.
      by apply elem_of_nil in Hq.
    + intros Hall. destruct (_count_duplicates files) as [|q l] eqn:Hd; [done|].
      assert (q ∈ _count_duplicates files) as Hq by (rewrite Hd; by left).
      apply count_duplicates_spec in Hq. specialize (Hall q). lia.
Qed.

(** X5.  Neither the set of paths nor the list of duplicates depends on the
    order of the file records. *)
Theorem duplicates_ignore_record_order (files files' : list dict) :
  files ≡ₚ files' →
  _path_set files = _path_set files'
  ∧ _count_duplicates files = _count_duplicates files'.
Proof.
  intros Hperm. split.
  - apply set_eq. intros p. rewrite !path_set_spec.
    by setoid_rewrite Hperm.
  - destruct (count_duplicates_sorted files) as [Hs Hn].
    destruct (count_duplicates_sorted files') as [Hs' Hn'].
    apply (StronglySorted_unique String.le); [done..|].
    apply NoDup_Permutation; [done..|].
    intros q. by rewrite !count_duplicates_spec, (record_count_permutation _ _ _ Hperm).
Qed.

Lemma duplicates_ignore_record_order_witness :
  _count_duplicates [[("path", VStr "b")]; [("path", VStr "a")];
                     [("path", VStr "b")]; [("path", VStr "a")]]
  = _count_duplicates [[("path", VStr "a")]; [("path", VStr "a")];
                       [("path", VStr "b")]; [("path", VStr "b")]].
Proof.
  apply duplicates_ignore_record_order.
  etrans; [apply perm_swap|]. apply perm_skip.
  etrans; [apply perm_skip, perm_swap|]. apply perm_swap.
Defined.

Lemma no_duplicates_iff_paths_distinct_witness :
  "a" ∈ _path_set [[("path", VStr "a")]; [("path", VStr "a")]]
  ∧ _count_duplicates [[("path", VStr "a")]; [("path", VStr "b")]; [("path", VInt 1)]] = [].
Proof.
  split.
  - apply (proj1 (no_duplicates_iff_paths_distinct
                    [[("path", VStr "a")]; [("path", VStr "a")]])).
    vm_compute. by left.
  - apply (proj2 (no_duplicates_iff_paths_distinct
                    [[("path", VStr "a")]; [("path", VStr "b")]; [("path", VInt 1)]])).
    vm_compute. apply NoDup_cons. split; [|apply NoDup_singleton].
    by intros ?%list_elem_of_singleton.
Defined.

(** ** Markers *)

Lemma rstrip_snoc c s : rstrip c (s +:+ String c EmptyString) = rstrip c s.
Proof.
  induction s as [|a s IH].
  - change (EmptyString +:+ String c EmptyString) with (String c EmptyString).
    cbn [rstrip String.eqb andb]. by rewrite Ascii.eqb_refl.
  - rewrite string_app_cons. cbn [rstrip]. by rewrite IH.
Qed.

(** X6.  [has_prefix] does not depend on slashes at the end of the prefix
    it is given: [has_prefix("docs")], [has_prefix("docs/")] and
    [has_prefix("docs//")] ask the same question, whether some path starts
    with [docs/]. *)
Theorem has_prefix_ignores_trailing_slashes (paths : gset string) pre :
  has_prefix paths (pre +:+ "/") = has_prefix paths pre
  ∧ (has_prefix paths pre = true
     ↔ ∃ p, p ∈ paths ∧ ∃ rest, p = (rstrip "/" pre +:+ "/") +:+ rest).
Proof.
  split; [|apply has_prefix_spec].
  unfold has_prefix. by rewrite rstrip_snoc.
Qed.

Lemma has_prefix_mono (paths paths' : gset string) pre :
  paths ⊆ paths' → has_prefix paths pre = true → has_prefix paths' pre = true.
Proof.
  intros Hsub (p & Hp & Hrest)%has_prefix_spec.
  apply has_prefix_spec. exists p. split; [by apply Hsub | done].
Qed.

Lemma when_sublist (c c' : bool) f :
  (c' = true → c = true) → when c' f `sublist_of` when c f.
Proof.
  destruct c'; [intros -> | intros _; apply sublist_nil_l]; done.
Qed.

(** X7.  Observing more paths never raises a marker finding that was not
    raised before: the findings on a larger set of paths are a
    subsequence of the findings on a smaller one. *)
Theorem more_paths_fewer_marker_findings (paths paths' : gset string) :
  paths ⊆ paths' →
  _heuristic_expected_markers paths' `sublist_of` _heuristic_expected_markers paths.
Proof.
  intros Hsub. rewrite !expected_markers_unfold.
  assert (∀ pre, negb (has_prefix paths' pre) = true →
                 negb (has_prefix paths pre) = true) as Hneg.
  { intros pre. rewrite !negb_true_iff.
    destruct (has_prefix paths pre) eqn:Hp; [|done].
    by rewrite (has_prefix_mono _ _ _ Hsub Hp). }
  repeat apply sublist_app; apply when_sublist; try apply Hneg.
  - rewrite !andb_true_iff, !negb_true_iff, !bool_decide_eq_false.
    intros [Hfile Hdir]. split.
    + intros Hin. apply Hfile. by apply Hsub.
    + by apply negb_true_iff, Hneg, negb_true_iff.
  - rewrite !andb_true_iff. intros [? ?]. split; by apply Hneg.
Qed.

Lemma more_paths_fewer_marker_findings_witness :
  _heuristic_expected_markers {[ ".wgx/profile.yml"; "docs/a.md" ]}
    `sublist_of` _heuristic_expected_markers {[ "docs/a.md" ]}.
Proof.
  apply more_paths_fewer_marker_findings.
  intros p Hp. apply elem_of_union. by right.
Defined.

(** X8.  The marker finding for contracts is raised exactly when no path
    starts with [contracts/]; the one for docs exactly when no path starts
    with [docs/] and none with [doc/]; the one for CI exactly when no path
    starts with [.github/workflows/]. *)
Theorem directory_markers (paths : gset string) :
  (finding_003 ∈ _heuristic_expected_markers paths
   ↔ ¬ ∃ p, p ∈ paths ∧ ∃ rest, p = "contracts/" +:+ rest)
  ∧ (finding_004 ∈ _heuristic_expected_markers paths
     ↔ ¬ ((∃ p, p ∈ paths ∧ ∃ rest, p = "docs/" +:+ rest)
          ∨ (∃ p, p ∈ paths ∧ ∃ rest, p = "doc/" +:+ rest)))
  ∧ (finding_005 ∈ _heuristic_expected_markers paths
     ↔ ¬ ∃ p, p ∈ paths ∧ ∃ rest, p = ".github/workflows/" +:+ rest).
Proof.
  rewrite expected_markers_unfold, !elem_of_app, !elem_of_when_iff.
  rewrite <- (has_prefix_spec paths "contracts/"), <- (has_prefix_spec paths "docs/"),
    <- (has_prefix_spec paths "doc/"), <- (has_prefix_spec paths ".github/workflows/").
  rewrite !andb_true_iff, !negb_true_iff, <- !not_true_iff_false.
  split; [|split].
  - split; [|by auto 10].
    by intros [[_ [=]] | [[_ [=]] | [[? _] | [[_ [=]] | [_ [=]]]]]].
  - split.
    + intros [[_ [=]] | [[_ [=]] | [[_ [=]] | [[[? ?] _] | [_ [=]]]]]].
      by intros [?|?].
    + intros Hnone. do 3 right. left. split; [|done].
      split; intros ?; apply Hnone; auto.
  - split; [|by auto 10].
    by intros [[_ [=]] | [[_ [=]] | [[_ [=]] | [[_ [=]] | [? _]]]]].
Qed.

(** ** Reports *)

Lemma sublist_NoDup {A} (l1 l2 : list A) :
  l1 `sublist_of` l2 → NoDup l2 → NoDup l1.
Proof.
  induction 1 as [|x l1 l2 Hsub IH|x l1 l2 Hsub IH]; intros Hnd; [done|..].
  - apply NoDup_cons in Hnd as [Hx Hnd]. apply NoDup_cons. split; [|by apply IH].
    intros Hin. apply Hx. by apply (elem_of_sublist l1).
  - apply NoDup_cons in Hnd as [_ Hnd]. by apply IH.
Qed.

Lemma run_rules_table (rs : list (string * rule)) (ts : list (string * string)) doc :
  Forall2 (λ cr t, code_and_severity <$> cr.2 doc `sublist_of` [t]) rs ts →
  code_and_severity <$> run_rules rs doc `sublist_of` ts.
Proof.
  induction 1 as [|cr t rs ts Hr Hrs IH]; [done|].
  unfold run_rules. cbn [fmap list_fmap concat]. fold (run_rules rs doc).
  rewrite fmap_app. change (t :: ts) with ([t] ++ ts). by apply sublist_app.
Qed.

Lemma when_table c f :
  code_and_severity <$> when c f `sublist_of` [code_and_severity f].
Proof. destruct c; [done | apply sublist_nil_l]. Qed.

Lemma from_option_table {A} (mk : A → Finding) o t :
  (∀ a, code_and_severity (mk a) = t) →
  code_and_severity <$> from_option (λ a, [mk a]) [] o `sublist_of` [t].
Proof.
  intros Hmk. destruct o as [a|]; [|apply sublist_nil_l].
  cbn [from_option fmap list_fmap]. by rewrite Hmk.
Qed.

Lemma rules_follow_table `{PyBuiltins} doc :
  code_and_severity <$> run_rules (meta_rules ++ marker_rules) doc
  `sublist_of` finding_table.
Proof.
  apply run_rules_table. unfold meta_rules, marker_rules, finding_table.
  cbn [app].
  repeat apply Forall2_cons_2; try apply Forall2_nil_2; cbn [snd];
    first [ apply when_table | by apply from_option_table ].
Qed.

Lemma finding_table_codes_distinct : NoDup finding_table.*1.
Proof. apply (bool_decide_unpack _). by vm_compute. Qed.

(** X9.  In every report the findings follow one fixed table of thirteen
    codes: the pairs of code and severity form a subsequence of the table,
    so a code always comes with the same severity, no code occurs twice,
    the order is that of the table and there are at most thirteen
    findings. *)
Theorem findings_follow_the_table `{PyBuiltins} now doc ip rep :
  build_report now doc ip = Ok rep →
  code_and_severity <$> findings rep `sublist_of` finding_table
  ∧ NoDup (code <$> findings rep)
  ∧ (length (findings rep) ≤ 13)%nat.
Proof.
  intros (fields & -> & _ & ->)%build_report_inv.
  pose proof (rules_follow_table (VDict fields)) as Htable.
  cbn [report_on_mapping findings]. split; [exact Htable|]. split.
  - apply (sublist_NoDup _ finding_table.*1); [|apply finding_table_codes_distinct].
    assert (∀ l : list Finding, code <$> l = (code_and_severity <$> l).*1) as ->
      by (intros l; by rewrite <- list_fmap_compose).
    by apply fmap_sublist.
  - apply sublist_length in Htable. by rewrite length_fmap in Htable.
Qed.

Lemma findings_follow_the_table_witness :
  ∃ rep, build_report "2026-01-01T00:00:00Z" doc_other "merge.json" = Ok rep
         ∧ NoDup (code <$> findings rep).
Proof.
  assert (build_report (H:=ascii_builtins) "2026-01-01T00:00:00Z" doc_other
            "merge.json"
          = Ok (report_on_mapping "2026-01-01T00:00:00Z" doc_other "merge.json"))
    as Hrep by (vm_compute; reflexivity).
  exists (report_on_mapping "2026-01-01T00:00:00Z" doc_other "merge.json").
  split; [exact Hrep|].
  exact (proj1 (proj2 (findings_follow_the_table _ _ _ _ Hrep))).
Defined.

(** X10.  [build_report] returns a report exactly on the mappings whose
    [meta] is missing or a mapping.  On every other document it raises
    [AttributeError] for the attribute [get]: of the root when the root is
    no mapping, of the value of [meta] when that is present and no
    mapping.  It raises nothing else. *)
Theorem build_report_raises_exactly `{PyBuiltins} now doc ip :
  ((∃ rep, build_report now doc ip = Ok rep)
   ↔ ∃ fields, doc = VDict fields ∧ meta_absent_or_mapping fields)
  ∧ (∀ e, build_report now doc ip = Err e →
       (is_dict doc = false ∧ e = AttributeError (type_name doc) "get")
       ∨ ∃ fields v, doc = VDict fields
           ∧ dict_lookup "meta" fields = Some v ∧ is_dict v = false
           ∧ e = AttributeError (type_name v) "get").
Proof.
  split.
  - split.
    + intros (rep & (fields & -> & Hm & _)%build_report_inv). eauto.
    + intros (fields & -> & Hm). eexists. by apply build_report_mapping.
  - intros e He. destruct (is_dict doc) eqn:Hdoc.
    + right. destruct doc as [| | | | | |fields]; try discriminate.
      exists fields.
      destruct (dict_lookup "meta" fields) as [v|] eqn:Hm.
      * exists v. destruct (is_dict v) eqn:Hv.
        -- destruct v as [| | | | | |m]; try discriminate.
           rewrite build_report_mapping in He by (right; eauto). discriminate.
        -- rewrite (build_report_meta_not_mapping _ _ _ _ Hm Hv) in He.
           by injection He as <-.
      * rewrite build_report_mapping in He by (by left). discriminate.
    + left. rewrite (build_report_not_mapping _ _ _ Hdoc) in He.
      by injection He as <-.
Qed.

Lemma build_report_raises_exactly_witness :
  build_report "2026-01-01T00:00:00Z" doc_meta_null "merge.json"
  = Err (AttributeError "NoneType" "get").
Proof.
  assert (build_report (H:=ascii_builtins) "2026-01-01T00:00:00Z" doc_meta_null
            "merge.json" = Err (AttributeError "NoneType" "get"))
    as He by (vm_compute; reflexivity).
  destruct (proj2 (build_report_raises_exactly (H:=ascii_builtins)
                     "2026-01-01T00:00:00Z" doc_meta_null "merge.json") _ He)
    as [[Hdoc _] | (fields & v & _ & _ & _ & _)]; [discriminate | exact He].
Defined.

(** ** Findings and the uncertainty assessment *)

Lemma float_below_95_below_100 g :
  SFltb g F64.f_95_0 = true → SFltb g F64.f_100_0 = true.
Proof.
  unfold SFltb, F64.f_95_0, F64.f_100_0.
  destruct g as [s|s| |s m e]; cbn [SFcompare]; try done.
  destruct s; [done|].
  destruct (Z.compare e (-46)); try done.
  rewrite !Pos.compare_cont_spec. cbn [Pos.switch_Eq].
  destruct (Pos.compare_spec m 6685030696878080) as [?|Hlt|?]; try done.
  intros _.
  assert (Pos.compare m 7036874417766400 = Lt) as ->; [|done].
  apply Pos.compare_lt_iff.
  eapply Pos.lt_trans; [exact Hlt | by vm_compute].
Qed.

Lemma number_below_95_below_100 v :
  is_int_or_float v && num_ltb v F64.f_95_0 = true →
  is_int_or_float v && num_ltb v F64.f_100_0 = true.
Proof.
  destruct v as [|b|z|g|s|l|d]; cbn [is_int_or_float num_ltb andb]; try done.
  - rewrite Z_ltb_95, Z_ltb_100. destruct b; intros ?%Z.ltb_lt; apply Z.ltb_lt; lia.
  - rewrite Z_ltb_95, Z_ltb_100. intros ?%Z.ltb_lt. apply Z.ltb_lt. lia.
  - apply float_below_95_below_100.
Qed.

Lemma uncertainty_sum_causes doc :
  (uncertainty_sum doc).2
  = causes_of (coverage_below_100 doc) (filters_active doc) (reduced_context doc).
Proof.
  unfold uncertainty_sum, causes_of.
  by destruct (coverage_below_100 doc), (filters_active doc), (reduced_context doc).
Qed.

Lemma uncertainty_causes doc :
  dict_lookup "causes" (_uncertainty doc)
  = Some (VList (VStr <$>
       or_sentinel (causes_of (coverage_below_100 doc) (filters_active doc)
                      (reduced_context doc)))).
Proof. rewrite uncertainty_unfold, uncertainty_sum_causes. reflexivity. Qed.

(** X11.  The assessment lists exactly the causes whose test holds, in the
    order coverage, filters, flags, and the sentinel alone when none
    holds; its score is the baseline 0.18 exactly when none holds; the
    note is always the same. *)
Theorem uncertainty_lists_what_fired doc :
  dict_lookup "causes" (_uncertainty doc)
  = Some (VList (VStr <$>
       or_sentinel (causes_of (coverage_below_100 doc) (filters_active doc)
                      (reduced_context doc))))
  ∧ (dict_lookup "uncertainty_score" (_uncertainty doc) = Some (VFloat F64.f_0_18)
     ↔ causes_of (coverage_below_100 doc) (filters_active doc)
         (reduced_context doc) = [])
  ∧ dict_lookup "note" (_uncertainty doc) = Some (VStr uncertainty_note).
Proof.
  split; [apply uncertainty_causes|].
  rewrite uncertainty_unfold, uncertainty_sum_score.
  split; [|done].
  destruct (coverage_below_100 doc), (filters_active doc), (reduced_context doc);
    vm_compute; split; intros [=]; done.
Qed.

(** X12.  Whenever a report holds the low-coverage finding HG-SICHTER-011,
    it carries the coverage value in [coverage_pct] and its uncertainty
    assessment lists the coverage cause: a coverage below 95 is below
    100. *)
Theorem low_coverage_is_an_uncertainty_cause `{PyBuiltins} now doc ip rep :
  build_report now doc ip = Ok rep →
  with_code "HG-SICHTER-011" (findings rep) ≠ [] →
  coverage_pct rep = _safe_get doc ["coverage"; "coverage_pct"] VNone
  ∧ coverage_pct rep ≠ VNone
  ∧ ∃ cs, dict_lookup "causes" (uncertainty rep) = Some (VList (VStr <$> cs))
          ∧ cause_coverage ∈ cs.
Proof.
  intros (fields & -> & _ & ->)%build_report_inv.
  rewrite (report_with_code _ _ _ "HG-SICHTER-011" rule_coverage) by set_solver.
  unfold rule_coverage. intros Hrule.
  destruct (is_int_or_float _ && num_ltb _ F64.f_95_0) eqn:Hlow; [|done].
  cbn [report_on_mapping coverage_pct uncertainty].
  pose proof Hlow as [Hnum _]%andb_true_iff. rewrite Hnum.
  split; [done|]. split.
  { intros Hnone. by rewrite Hnone in Hnum. }
  eexists. split; [apply uncertainty_causes|].
  unfold coverage_below_100. rewrite (number_below_95_below_100 _ Hlow).
  unfold causes_of. cbn [app]. left.
Qed.

Lemma low_coverage_is_an_uncertainty_cause_witness :
  ∃ rep cs, build_report "2026-01-01T00:00:00Z" doc_other "merge.json" = Ok rep
         ∧ coverage_pct rep = VInt 50
         ∧ dict_lookup "causes" (uncertainty rep) = Some (VList (VStr <$> cs))
         ∧ cause_coverage ∈ cs.
Proof.
  assert (build_report (H:=ascii_builtins) "2026-01-01T00:00:00Z" doc_other
            "merge.json"
          = Ok (report_on_mapping "2026-01-01T00:00:00Z" doc_other "merge.json"))
    as Hrep by (vm_compute; reflexivity).
  destruct (low_coverage_is_an_uncertainty_cause (H:=ascii_builtins) _ _ _ _ Hrep)
    as (Hcov & _ & cs & Hcs & Hin); [by vm_compute|].
  exists (report_on_mapping "2026-01-01T00:00:00Z" doc_other "merge.json"), cs.
  split; [exact Hrep|]. split; [exact Hcov|]. split; [exact Hcs | exact Hin].
Defined.

Lemma nonblank_str_truthy `{PyBuiltins} v s :
  py_strip EmptyString = EmptyString →
  nonblank_str v = Some s → v = VStr s ∧ truthy v = true.
Proof.
  intros Hstrip. unfold nonblank_str.
  destruct v as [| | | |t| |]; try done.
  destruct (String.eqb (py_strip t) EmptyString) eqn:Ht; [done|].
  intros [= ->]. split; [done|]. cbn [truthy].
  apply negb_true_iff, String.eqb_neq. intros ->.
  apply String.eqb_neq in Ht. by apply Ht.
Qed.

(** X13.  Provided [strip] maps the empty string to itself, as Python's
    does: whenever a report holds a filter finding, HG-SICHTER-013 or
    HG-SICHTER-014, its uncertainty assessment lists the filter cause. *)
Theorem filter_finding_is_an_uncertainty_cause `{PyBuiltins} now doc ip rep :
  py_strip EmptyString = EmptyString →
  build_report now doc ip = Ok rep →
  with_code "HG-SICHTER-013" (findings rep) ≠ []
  ∨ with_code "HG-SICHTER-014" (findings rep) ≠ [] →
  ∃ cs, dict_lookup "causes" (uncertainty rep) = Some (VList (VStr <$> cs))
        ∧ cause_filters ∈ cs.
Proof.
  intros Hstrip (fields & -> & _ & ->)%build_report_inv.
  rewrite (report_with_code _ _ _ "HG-SICHTER-013" rule_path_filter) by set_solver.
  rewrite (report_with_code _ _ _ "HG-SICHTER-014" rule_ext_filter) by set_solver.
  intros Hfired.
  assert (filters_active (VDict fields) = true) as Hactive.
  { unfold filters_active. fold (doc_filters (VDict fields)).
    unfold rule_path_filter, rule_ext_filter, filter_field in Hfired.
    destruct (doc_filters (VDict fields)) as [| | | | | |d];
      try (destruct Hfired as [Hf|Hf]; by destruct Hf).
    apply orb_true_iff.
    destruct Hfired as [Hf|Hf]; [left|right];
      match type of Hf with
      | context [nonblank_str ?v] =>
          destruct (nonblank_str v) as [s|] eqn:Hs; [|by destruct Hf];
          by destruct (nonblank_str_truthy _ _ Hstrip Hs)
      end. }
  cbn [report_on_mapping uncertainty].
  eexists. split; [apply uncertainty_causes|]. rewrite Hactive.
  unfold causes_of. destruct (coverage_below_100 _); cbn [app]; set_solver.
Qed.

Lemma filter_finding_is_an_uncertainty_cause_witness :
  ∃ rep cs, build_report "2026-01-01T00:00:00Z" doc_other "merge.json" = Ok rep
         ∧ dict_lookup "causes" (uncertainty rep) = Some (VList (VStr <$> cs))
         ∧ cause_filters ∈ cs.
Proof.
  assert (build_report (H:=ascii_builtins) "2026-01-01T00:00:00Z" doc_other
            "merge.json"
          = Ok (report_on_mapping "2026-01-01T00:00:00Z" doc_other "merge.json"))
    as Hrep by (vm_compute; reflexivity).
  destruct (filter_finding_is_an_uncertainty_cause (H:=ascii_builtins) _ _ _ _
              eq_refl Hrep)
    as (cs & Hcs & Hin); [left; by vm_compute|].
  exists (report_on_mapping "2026-01-01T00:00:00Z" doc_other "merge.json"), cs.
  split; [exact Hrep|]. split; [exact Hcs | exact Hin].
Defined.

(** X14.  Provided [strip] maps the empty string to itself: a report whose
    [scope] is empty holds the finding HG-SICHTER-017, and a report
    without that finding carries the scope of the document, a string that
    is not blank. *)
Theorem empty_scope_is_reported `{PyBuiltins} now doc ip rep :
  py_strip EmptyString = EmptyString →
  build_report now doc ip = Ok rep →
  (scope rep = EmptyString →
   with_code "HG-SICHTER-017" (findings rep) = [finding_017])
  ∧ (with_code "HG-SICHTER-017" (findings rep) = [] →
     _safe_get doc ["scope"] VNone = VStr (scope rep)
     ∧ py_strip (scope rep) ≠ EmptyString).
Proof.
  intros Hstrip (fields & -> & _ & ->)%build_report_inv.
  rewrite (report_with_code _ _ _ "HG-SICHTER-017" rule_scope) by set_solver.
  unfold rule_scope. cbn [report_on_mapping scope].
  destruct (_safe_get (VDict fields) ["scope"] VNone) as [| | | |s| |];
    cbn [is_str negb orb when]; try (split; [done | discriminate]).
  split.
  - intros ->. by rewrite Hstrip.
  - destruct (String.eqb (py_strip s) EmptyString) eqn:Hs; [discriminate|].
    intros _. split; [done|]. by apply String.eqb_neq.
Qed.

Lemma empty_scope_is_reported_witness :
  ∃ rep, build_report "2026-01-01T00:00:00Z" doc_other "merge.json" = Ok rep
         ∧ with_code "HG-SICHTER-017" (findings rep) = [finding_017].
Proof.
  assert (build_report (H:=ascii_builtins) "2026-01-01T00:00:00Z" doc_other
            "merge.json"
          = Ok (report_on_mapping "2026-01-01T00:00:00Z" doc_other "merge.json"))
    as Hrep by (vm_compute; reflexivity).
  exists (report_on_mapping "2026-01-01T00:00:00Z" doc_other "merge.json").
  split; [exact Hrep|].
  apply (proj1 (empty_scope_is_reported (H:=ascii_builtins) _ _ _ _ eq_refl Hrep)).
  reflexivity.
Defined.

(** ** Rendering *)

Lemma foldl_finding_lines `{PyBuiltins} (fs : list Finding) (lines : list string) :
  foldl (λ lines f,
           (lines ++ ["- **" +:+ code f +:+ "** — " +:+ title f])
           ++ ["  - " +:+ detail f]) lines fs
  = lines ++ concat (finding_lines <$> fs).
Proof.
  revert lines. induction fs as [|f fs IH]; intros lines; cbn [foldl].
  { by rewrite app_nil_r. }
  rewrite IH. cbn [fmap list_fmap concat]. unfold finding_lines at 2.
  by rewrite <- !app_assoc.
Qed.

Lemma render_section_lines `{PyBuiltins} rep lines st :
  render_section rep lines st = lines ++ section_lines rep st.
Proof.
  unfold render_section, section_lines.
  destruct (bucket rep st.1) as [|f fs].
  - by rewrite <- !app_assoc.
  - rewrite foldl_finding_lines. by rewrite <- !app_assoc.
Qed.

Lemma foldl_cause_lines `{PyBuiltins} (causes : list value) (lines : list string) :
  foldl (λ lines c, lines ++ ["  - " +:+ py_str c]) lines causes
  = lines ++ ((λ c, "  - " +:+ py_str c) <$> causes).
Proof.
  revert lines. induction causes as [|c causes IH]; intros lines; cbn [foldl].
  { by rewrite app_nil_r. }
  rewrite IH. cbn [fmap list_fmap]. by rewrite <- app_assoc.
Qed.

(** The rendering around its three sections and its causes. *)
Lemma render_lines_shape `{PyBuiltins} rep lines :
  render_lines rep = Returned lines →
  ∃ head causes tail,
    py_iter (dict_get (uncertainty rep) "causes" (VList [])) = Returned causes
    ∧ lines
      = head
        ++ section_lines rep ("crit", "Kritisch")
        ++ section_lines rep ("warn", "Warnungen")
        ++ section_lines rep ("info", "Hinweise")
        ++ ["## Ungewissheit";
            "- score: `"
            +:+ py_str (dict_get (uncertainty rep) "uncertainty_score" VNone)
            +:+ "`";
            "- Ursachen:"]
        ++ ((λ c, "  - " +:+ py_str c) <$> causes)
        ++ tail.
Proof.
  unfold render_lines. cbv zeta.
  match goal with
  | |- context [foldl (render_section rep) ?L section_titles] => set (head := L)
  end.
  cbn [foldl section_titles]. rewrite !render_section_lines.
  destruct (py_iter (dict_get (uncertainty rep) "causes" (VList [])))
    as [causes|t]; cbn [mbind checked_bind mret checked_ret]; [|discriminate].
  intros [= <-]. rewrite foldl_cause_lines.
  eexists head, causes, _. split; [done|].
  rewrite <- !app_assoc. cbn [app]. reflexivity.
Qed.

(** X15.  [render_markdown] fails in one case only: when the [causes] of
    the uncertainty cannot be iterated (a number, a boolean or [None]), it
    raises [TypeError] for that value; a missing [causes] is an empty
    list.  It never fails on a report that [build_report] returned. *)
Theorem render_markdown_fails_only_on_causes `{PyBuiltins} :
  (∀ rep,
     (∃ text, render_markdown rep = Returned text)
     ↔ iterable (dict_get (uncertainty rep) "causes" (VList [])) = true)
  ∧ (∀ rep t,
       render_markdown rep = TypeError t →
       t = type_name (dict_get (uncertainty rep) "causes" (VList [])))
  ∧ (∀ now doc ip rep,
       build_report now doc ip = Ok rep →
       ∃ text, render_markdown rep = Returned text).
Proof.
  assert (∀ rep,
     (∃ text, render_markdown rep = Returned text)
     ↔ iterable (dict_get (uncertainty rep) "causes" (VList [])) = true) as Hiter.
  { intros rep. unfold render_markdown, render_lines. cbv zeta.
    destruct (dict_get (uncertainty rep) "causes" (VList [])) as [| | | | | |];
      cbn [py_iter iterable mbind checked_bind mret checked_ret fmap checked_fmap];
      split; try done; try (by intros [? [=]]); by eexists. }
  split; [exact Hiter|]. split.
  - intros rep t. unfold render_markdown, render_lines. cbv zeta.
    destruct (dict_get (uncertainty rep) "causes" (VList [])) as [| | | | | |];
      cbn [py_iter mbind checked_bind mret checked_ret fmap checked_fmap type_name];
      by intros [=].
  - intros now doc ip rep (fields & -> & _ & ->)%build_report_inv.
    apply Hiter. cbn [report_on_mapping uncertainty].
    rewrite uncertainty_unfold. reflexivity.
Qed.

Lemma render_markdown_fails_only_on_causes_witness :
  (∃ text, render_markdown (mkReport "t" "a" "i" [] "s" VNone VNone [] []) = Returned text)
  ∧ render_markdown (mkReport "t" "a" "i" [] "s" VNone VNone [] [("causes", VInt 3)])
    = TypeError "int".
Proof.
  destruct (render_markdown_fails_only_on_causes (H:=ascii_builtins))
    as (Hiter & Htype & _).
  split; [by apply Hiter|].
  destruct (render_markdown (mkReport "t" "a" "i" [] "s" VNone VNone [] [("causes", VInt 3)]))
    as [text|t] eqn:Hr.
  - assert (iterable (VInt 3) = true) as Hbad; [|discriminate].
    apply (proj1 (Hiter (mkReport "t" "a" "i" [] "s" VNone VNone [] [("causes", VInt 3)]))).
    by exists text.
  - by rewrite (Htype _ _ Hr).
Defined.

Lemma table_severities_rendered :
  Forall (λ t : string * string, t.2 ∈ rendered_severities) finding_table.
Proof.
  unfold finding_table, rendered_severities.
  repeat apply Forall_cons_2; try apply Forall_nil_2; cbn [snd]; set_solver.
Qed.

Lemma report_severities_rendered `{PyBuiltins} now doc ip rep :
  build_report now doc ip = Ok rep →
  Forall (λ f, severity f ∈ rendered_severities) (findings rep).
Proof.
  intros (fields & -> & _ & ->)%build_report_inv.
  cbn [report_on_mapping findings]. apply Forall_forall. intros f Hf.
  pose proof table_severities_rendered as Htable. rewrite Forall_forall in Htable.
  apply (Htable (code_and_severity f)).
  apply (elem_of_sublist _ _ _ (list_elem_of_fmap_2 code_and_severity _ _ Hf)).
  apply rules_follow_table.
Qed.

Lemma buckets_partition (fs : list Finding) :
  Forall (λ f, severity f ∈ rendered_severities) fs →
  filter (λ f, severity f = "crit") fs
  ++ filter (λ f, severity f = "warn") fs
  ++ filter (λ f, severity f = "info") fs ≡ₚ fs.
Proof.
  induction 1 as [|f fs Hf Hfs IH]; [done|].
  unfold rendered_severities in Hf.
  apply elem_of_cons in Hf as [Hf|Hf]; [|apply elem_of_cons in Hf as [Hf|Hf];
    [|apply list_elem_of_singleton in Hf]].
  - rewrite filter_cons_True by done.
    rewrite !filter_cons_False by (rewrite Hf; discriminate).
    cbn [app]. by apply perm_skip.
  - rewrite (filter_cons_True (λ f, severity f = "warn")) by done.
    rewrite !filter_cons_False by (rewrite Hf; discriminate).
    cbn [app]. rewrite <- Permutation_middle. by apply perm_skip.
  - rewrite (filter_cons_True (λ f, severity f = "info")) by done.
    rewrite !filter_cons_False by (rewrite Hf; discriminate).
    rewrite app_assoc, <- Permutation_middle, <- app_assoc. by apply perm_skip.
Qed.

(** X16.  In a report of [build_report] every finding has one of the three
    severities that have a section, so the three buckets of
    [render_markdown] hold every finding exactly once and the three
    numbers in the headings add up to the number of findings. *)
Theorem sections_partition_findings `{PyBuiltins} now doc ip rep :
  build_report now doc ip = Ok rep →
  Forall (λ f, severity f ∈ rendered_severities) (findings rep)
  ∧ bucket rep "crit" ++ bucket rep "warn" ++ bucket rep "info" ≡ₚ findings rep
  ∧ (length (bucket rep "crit") + length (bucket rep "warn")
     + length (bucket rep "info") = length (findings rep))%nat.
Proof.
  intros Hrep. pose proof (report_severities_rendered _ _ _ _ Hrep) as Hsev.
  pose proof (buckets_partition _ Hsev) as Hperm.
  split; [done|]. split; [exact Hperm|].
  apply Permutation_length in Hperm. rewrite !length_app in Hperm.
  unfold bucket. lia.
Qed.

Lemma sections_partition_findings_witness :
  ∃ rep, build_report "2026-01-01T00:00:00Z" doc_other "merge.json" = Ok rep
         ∧ (length (bucket rep "crit") + length (bucket rep "warn")
            + length (bucket rep "info") = length (findings rep))%nat.
Proof.
  assert (build_report (H:=ascii_builtins) "2026-01-01T00:00:00Z" doc_other
            "merge.json"
          = Ok (report_on_mapping "2026-01-01T00:00:00Z" doc_other "merge.json"))
    as Hrep by (vm_compute; reflexivity).
  exists (report_on_mapping "2026-01-01T00:00:00Z" doc_other "merge.json").
  split; [exact Hrep|].
  exact (proj2 (proj2 (sections_partition_findings _ _ _ _ Hrep))).
Defined.

Lemma join_app sep (l1 l2 : list string) :
  l1 ≠ [] → l2 ≠ [] →
  join sep (l1 ++ l2) = join sep l1 +:+ sep +:+ join sep l2.
Proof.
  unfold join. intros Hl1 Hl2. induction l1 as [|x l1 IH]; [done|].
  destruct l1 as [|y l1].
  - destruct l2 as [|z l2]; done.
  - change (String.concat sep ((x :: y :: l1) ++ l2))
      with (x +:+ sep +:+ String.concat sep ((y :: l1) ++ l2)).
    rewrite IH by done.
    change (String.concat sep (x :: y :: l1))
      with (x +:+ sep +:+ String.concat sep (y :: l1)).
    by rewrite !string_app_assoc.
Qed.

Lemma occurs_in_refl s : occurs_in s s.
Proof. exists EmptyString, EmptyString. by rewrite string_app_nil_r. Qed.

Lemma occurs_in_prefix s after : occurs_in s (s +:+ after).
Proof. by exists EmptyString, after. Qed.

(** A block of consecutive lines occurs in the joined text as the block
    joined. *)
Lemma occurs_in_join_block sep (pre mid post : list string) :
  mid ≠ [] → occurs_in (join sep mid) (join sep (pre ++ mid ++ post)).
Proof.
  intros Hmid.
  assert (occurs_in (join sep mid) (join sep (mid ++ post))) as Hright.
  { destruct post as [|z post].
    - rewrite app_nil_r. apply occurs_in_refl.
    - rewrite join_app by done. apply occurs_in_prefix. }
  destruct pre as [|x pre]; [exact Hright|].
  rewrite join_app; [|done|by destruct mid].
  destruct Hright as (b & a & ->).
  exists (join sep (x :: pre) +:+ sep +:+ b), a. by rewrite !string_app_assoc.
Qed.

Lemma section_in_lines `{PyBuiltins} rep lines st :
  render_lines rep = Returned lines → st ∈ section_titles →
  ∃ pre post, lines = pre ++ section_lines rep st ++ post.
Proof.
  intros (head & causes & tail & _ & ->)%render_lines_shape Hst.
  unfold section_titles in Hst.
  apply elem_of_cons in Hst as [->|Hst]; [|apply elem_of_cons in Hst as [->|Hst];
    [|apply list_elem_of_singleton in Hst as ->]].
  - by eexists head, _.
  - eexists (head ++ section_lines rep ("crit", "Kritisch")), _.
    by rewrite <- app_assoc.
  - eexists (head ++ section_lines rep ("crit", "Kritisch")
             ++ section_lines rep ("warn", "Warnungen")), _.
    by rewrite <- !app_assoc.
Qed.

Lemma finding_in_section `{PyBuiltins} rep st f :
  f ∈ findings rep → severity f = st.1 →
  ∃ pre post, section_lines rep st = pre ++ finding_lines f ++ post.
Proof.
  intros Hf Hsev.
  assert (f ∈ bucket rep st.1) as Hin by (by apply list_elem_of_filter).
  unfold section_lines.
  destruct (bucket rep st.1) as [|g fs] eqn:Hb; [by apply elem_of_nil in Hin|].
  apply list_elem_of_split in Hin as (b1 & b2 & ->).
  rewrite fmap_app, concat_app. cbn [fmap list_fmap concat].
  match goal with
  | |- ∃ pre post, ?heading ++ _ ++ ?last = _ =>
      exists (heading ++ concat (finding_lines <$> b1)),
             (concat (finding_lines <$> b2) ++ last)
  end.
  by rewrite <- !app_assoc.
Qed.

(** X17.  No finding is lost in rendering: when [render_markdown] returns
    a text, every finding of the report whose severity is crit, warn or
    info occurs in it with its two lines, one after the other: the line of
    its code and title, then the line of its detail. *)
Theorem every_finding_is_rendered `{PyBuiltins} rep text f :
  render_markdown rep = Returned text →
  f ∈ findings rep →
  severity f ∈ rendered_severities →
  occurs_in
    (("- **" +:+ code f +:+ "** — " +:+ title f) +:+ newline
     +:+ ("  - " +:+ detail f))
    text.
Proof.
  unfold render_markdown. intros Htext Hf Hsev.
  destruct (render_lines rep) as [lines|t] eqn:Hlines; [|discriminate].
  injection Htext as <-.
  assert (∃ st, st ∈ section_titles ∧ severity f = st.1) as (st & Hst & Hfst).
  { unfold rendered_severities in Hsev. unfold section_titles.
    apply elem_of_cons in Hsev as [Hs|Hsev]; [|apply elem_of_cons in Hsev as [Hs|Hsev];
      [|apply list_elem_of_singleton in Hsev]].
    - exists ("crit", "Kritisch"). split; [set_solver | done].
    - exists ("warn", "Warnungen"). split; [set_solver | done].
    - exists ("info", "Hinweise"). split; [set_solver | done]. }
  destruct (section_in_lines _ _ _ Hlines Hst) as (pre & post & ->).
  destruct (finding_in_section rep st f Hf Hfst) as (pre' & post' & ->).
  replace (pre ++ (pre' ++ finding_lines f ++ post') ++ post)
    with ((pre ++ pre') ++ finding_lines f ++ (post' ++ post))
    by (by rewrite <- !app_assoc).
  apply (occurs_in_join_block newline _ (finding_lines f)). done.
Qed.

Lemma every_finding_is_rendered_witness :
  occurs_in
    (("- **" +:+ "X-1" +:+ "** — " +:+ "T") +:+ newline +:+ ("  - " +:+ "D"))
    (default EmptyString
       (match render_markdown
                (mkReport "t" "a" "i" [] "s" VNone VNone
                   [mkFinding "warn" "X-1" "T" "D"] [])
        with Returned text => Some text | TypeError _ => None end)).
Proof.
  apply (every_finding_is_rendered (H:=ascii_builtins)
           (mkReport "t" "a" "i" [] "s" VNone VNone [mkFinding "warn" "X-1" "T" "D"] [])
           _ (mkFinding "warn" "X-1" "T" "D")).
  - vm_compute. reflexivity.
  - by left.
  - right. by left.
Defined.

(** X18.  Provided [str] of a string is the string itself, as in Python:
    the rendering of a report of [build_report] shows every cause of its
    uncertainty assessment on a line of its own, and the sentinel when no
    test fired. *)
Theorem causes_are_rendered `{PyBuiltins} now doc ip rep lines c :
  (∀ s, py_str (VStr s) = s) →
  build_report now doc ip = Ok rep →
  render_lines rep = Returned lines →
  c ∈ or_sentinel (causes_of (coverage_below_100 doc) (filters_active doc)
                     (reduced_context doc)) →
  ("  - " +:+ c) ∈ lines.
Proof.
  intros Hstr (fields & -> & _ & ->)%build_report_inv
    (head & causes & tail & Hcauses & ->)%render_lines_shape Hc.
  cbn [report_on_mapping uncertainty] in Hcauses.
  unfold dict_get in Hcauses. rewrite uncertainty_causes in Hcauses.
  cbn [default from_option id py_iter] in Hcauses. injection Hcauses as <-.
  rewrite !elem_of_app. do 5 right. left.
  apply list_elem_of_fmap. exists (VStr c). split; [by rewrite Hstr|].
  by apply list_elem_of_fmap_2.
Qed.

Lemma causes_are_rendered_witness :
  ∃ lines,
    render_lines (report_on_mapping "2026-01-01T00:00:00Z" doc_clean "merge.json")
    = Returned lines
    ∧ ("  - " +:+ cause_none) ∈ lines.
Proof.
  assert (build_report (H:=ascii_builtins) "2026-01-01T00:00:00Z" doc_clean
            "merge.json"
          = Ok (report_on_mapping "2026-01-01T00:00:00Z" doc_clean "merge.json"))
    as Hrep by (vm_compute; reflexivity).
  destruct (render_lines (H:=ascii_builtins)
              (report_on_mapping "2026-01-01T00:00:00Z" doc_clean "merge.json"))
    as [lines|t] eqn:Hlines; [|by vm_compute in Hlines].
  exists lines. split; [reflexivity|].
  apply (causes_are_rendered (H:=ascii_builtins) _ _ _ _ _ _
           (λ s, eq_refl) Hrep Hlines).
  vm_compute. by left.
Defined.

(** ** Markers of a report *)

Lemma doc_paths_declared fields raw p :
  dict_lookup "files" fields = Some (VList raw) →
  p ∈ doc_paths (VDict fields) ↔ ∃ v, v ∈ raw ∧ item_path v = Some p.
Proof.
  intros Hraw. unfold doc_paths, doc_files. cbn [_safe_get]. rewrite Hraw.
  rewrite path_set_spec. split.
  - intros (f & (v & Hv & Hf)%list_elem_of_omap & Hp). exists v. split; [done|].
    destruct v; try discriminate. injection Hf as ->.
    by apply record_path_Some.
  - intros (v & Hv & Hp). destruct v as [| | | | | |f]; try discriminate.
    exists f. split; [|by apply record_path_Some].
    apply list_elem_of_omap. by exists (VDict f).
Qed.

Lemma has_prefix_declared fields raw (dir : string) :
  dict_lookup "files" fields = Some (VList raw) →
  rstrip "/" dir +:+ "/" = dir →
  has_prefix (doc_paths (VDict fields)) dir = true ↔ declares raw (under dir).
Proof.
  intros Hraw Hdir. rewrite has_prefix_spec, Hdir. unfold declares, under.
  setoid_rewrite (doc_paths_declared _ _ _ Hraw). naive_solver.
Qed.

(** X19.  In a report of [build_report] on a document with a list of
    files, a marker finding is absent exactly when a file record declares
    the marker: [.ai-context.yml] itself or a path under it for
    HG-SICHTER-001, a path under [.wgx/], [contracts/], [docs/] or [doc/],
    [.github/workflows/] for the four others. *)
Theorem markers_follow_the_records `{PyBuiltins} now fields raw ip rep :
  build_report now (VDict fields) ip = Ok rep →
  dict_lookup "files" fields = Some (VList raw) →
  (with_code "HG-SICHTER-001" (findings rep) = []
   ↔ declares raw (λ p, p = ".ai-context.yml") ∨ declares raw (under ".ai-context.yml/"))
  ∧ (with_code "HG-SICHTER-002" (findings rep) = [] ↔ declares raw (under ".wgx/"))
  ∧ (with_code "HG-SICHTER-003" (findings rep) = [] ↔ declares raw (under "contracts/"))
  ∧ (with_code "HG-SICHTER-004" (findings rep) = []
     ↔ declares raw (under "docs/") ∨ declares raw (under "doc/"))
  ∧ (with_code "HG-SICHTER-005" (findings rep) = []
     ↔ declares raw (under ".github/workflows/")).
Proof.
  intros (fields' & [= <-] & _ & ->)%build_report_inv Hraw.
  rewrite (report_with_code _ _ _ "HG-SICHTER-001" marker_ai_context) by set_solver.
  rewrite (report_with_code _ _ _ "HG-SICHTER-002" marker_wgx) by set_solver.
  rewrite (report_with_code _ _ _ "HG-SICHTER-003" marker_contracts) by set_solver.
  rewrite (report_with_code _ _ _ "HG-SICHTER-004" marker_docs) by set_solver.
  rewrite (report_with_code _ _ _ "HG-SICHTER-005" marker_workflows) by set_solver.
  unfold marker_ai_context, marker_wgx, marker_contracts, marker_docs,
    marker_workflows.
  rewrite <- (has_prefix_declared _ _ ".ai-context.yml/" Hraw eq_refl),
    <- (has_prefix_declared _ _ ".wgx/" Hraw eq_refl),
    <- (has_prefix_declared _ _ "contracts/" Hraw eq_refl),
    <- (has_prefix_declared _ _ "docs/" Hraw eq_refl),
    <- (has_prefix_declared _ _ "doc/" Hraw eq_refl),
    <- (has_prefix_declared _ _ ".github/workflows/" Hraw eq_refl).
  assert (declares raw (λ p, p = ".ai-context.yml")
          ↔ bool_decide (".ai-context.yml" ∈ doc_paths (VDict fields)) = true)
    as ->.
  { rewrite bool_decide_eq_true, (doc_paths_declared _ _ _ Hraw).
    unfold declares. naive_solver. }
  repeat split;
    repeat match goal with
           | |- context [has_prefix ?s ?d] => destruct (has_prefix s d)
           | |- context [bool_decide ?P] => destruct (bool_decide P)
           end; cbn [negb andb when]; try done; try (by left); try (by right);
    by intros [?|?].
Qed.

Lemma markers_follow_the_records_witness :
  ∃ rep, build_report "2026-01-01T00:00:00Z" doc_other "merge.json" = Ok rep
         ∧ with_code "HG-SICHTER-002" (findings rep) ≠ [].
Proof.
  assert (build_report (H:=ascii_builtins) "2026-01-01T00:00:00Z" doc_other
            "merge.json"
          = Ok (report_on_mapping "2026-01-01T00:00:00Z" doc_other "merge.json"))
    as Hrep by (vm_compute; reflexivity).
  exists (report_on_mapping "2026-01-01T00:00:00Z" doc_other "merge.json").
  split; [exact Hrep|].
  destruct (markers_follow_the_records (H:=ascii_builtins) _ fields_other
              files_other _ _ Hrep eq_refl)
    as (_ & [Hwgx _] & _).
  intros Hnone. destruct (Hwgx Hnone) as (v & p & Hv & Hp & rest & ->).
  vm_compute in Hv.
  repeat (apply elem_of_cons in Hv as [->|Hv]; [by vm_compute in Hp|]).
  by apply elem_of_nil in Hv.
Defined.

(** ** Closed instances of the equivalences *)

Lemma path_set_holds_declared_paths_witness :
  "a" ∈ _path_set [[("size", VInt 1)]; [("path", VStr "a")]; [("path", VInt 2)]].
Proof.
  apply (proj2 (path_set_holds_declared_paths
                  [[("size", VInt 1)]; [("path", VStr "a")]; [("path", VInt 2)]] "a")).
  exists [("path", VStr "a")]. split; [|reflexivity]. right. by left.
Defined.

Lemma has_prefix_ignores_trailing_slashes_witness :
  has_prefix {[ "docs/a.md" ]} "docs" = true.
Proof.
  apply (proj2 (proj2 (has_prefix_ignores_trailing_slashes {[ "docs/a.md" ]} "docs"))).
  exists "docs/a.md". split; [by apply elem_of_singleton|]. by exists "a.md".
Defined.

Lemma directory_markers_witness :
  (finding_004 ∉ _heuristic_expected_markers {[ "doc/a.md" ]})
  ∧ (finding_003 ∈ _heuristic_expected_markers {[ "contracts" ]}).
Proof.
  destruct (directory_markers {[ "doc/a.md" ]}) as (_ & Hdocs & _).
  destruct (directory_markers {[ "contracts" ]}) as (Hcontracts & _ & _).
  split.
  - intros Hin%Hdocs. apply Hin. right.
    exists "doc/a.md". split; [by apply elem_of_singleton|]. by exists "a.md".
  - apply Hcontracts. intros (p & ->%elem_of_singleton & rest & [=]).
Defined.

Lemma uncertainty_lists_what_fired_witness :
  dict_lookup "uncertainty_score" (_uncertainty doc_clean) = Some (VFloat F64.f_0_18).
Proof.
  apply (proj2 (proj1 (proj2 (uncertainty_lists_what_fired doc_clean)))).
  reflexivity.
Defined.
